(** * py4cytoscape: visual-property mappings ([style_mappings.py])

    A shallow embedding of the mapping builder [map_visual_property], the
    applier [update_style_mapping], [delete_style_mapping], the dispatcher
    [_update_style_mapping] and the node opacity functions, followed by the
    properties the specification states about them.

    Conventions of the embedding.
    - Python [str] values are [string]s.  The text functions ([re.sub] on
      whitespace runs, [upper], [lower], [split]) are exact on ASCII text;
      characters above 127 are left untouched by the case functions and are
      never treated as whitespace.  [Text.isascii] names the texts on which
      the functions are those of Python; the statements about the
      normalization of a property name are made for such names.
    - Python [int]s are [Z].  Column values and property values are never
      inspected by the builder, so it is polymorphic in their types [K], [V].
    - A parameter that a caller may leave as [None] is an [option]; [len] and
      [zip] on [None] raise [TypeError].
    - Functions that talk to Cytoscape live in the monad [Cy]: they take the
      state of the running application and return an outcome (a value or a
      raised exception) together with the new state.  The state keeps the
      sequence of calls made to the modules outside [style_mappings.py]
      ([commands], [networks], [styles], [style_defaults], the utilities) and
      of writes to [sys.stderr], oldest first.
    - [time.sleep] has no effect on the state and is left out. *)

From Stdlib Require Import ZArith String Ascii DecimalString.
From stdpp Require Import base list strings.

Open Scope string_scope.

(** ** Text functions *)

Module Text.

(** [Py_UNICODE_ISSPACE] on ASCII: TAB..CR, FS..US and the space. *)
Definition is_space (c : ascii) : bool :=
  let n := nat_of_ascii c in
  ((9 <=? n)%nat && (n <=? 13)%nat) || ((28 <=? n)%nat && (n <=? 32)%nat).

Definition is_lower (c : ascii) : bool :=
  let n := nat_of_ascii c in (97 <=? n)%nat && (n <=? 122)%nat.

Definition is_upper (c : ascii) : bool :=
  let n := nat_of_ascii c in (65 <=? n)%nat && (n <=? 90)%nat.

Definition upper_char (c : ascii) : ascii :=
  if is_lower c then ascii_of_nat (nat_of_ascii c - 32) else c.

Definition lower_char (c : ascii) : ascii :=
  if is_upper c then ascii_of_nat (nat_of_ascii c + 32) else c.

(** [s.upper()] *)
Fixpoint upper (s : string) : string :=
  match s with
  | EmptyString => EmptyString
  | String c s' => String (upper_char c) (upper s')
  end.

(** [s.lower()] *)
Fixpoint lower (s : string) : string :=
  match s with
  | EmptyString => EmptyString
  | String c s' => String (lower_char c) (lower s')
  end.

(** [re.sub('\\s+', '_', s)]: every maximal run of whitespace becomes one
    underscore.  [in_run] tells that the previous character was whitespace
    already replaced. *)
Fixpoint sub_spaces (in_run : bool) (s : string) : string :=
  match s with
  | EmptyString => EmptyString
  | String c s' =>
      if is_space c then
        if in_run then sub_spaces true s' else String "_" (sub_spaces true s')
      else String c (sub_spaces false s')
  end.

Definition re_sub_spaces (s : string) : string := sub_spaces false s.

(** [s.split('_')[0]]: the text before the first underscore. *)
Fixpoint split_first (s : string) : string :=
  match s with
  | EmptyString => EmptyString
  | String c s' => if Ascii.eqb c "_" then EmptyString else String c (split_first s')
  end.

(** [s.isascii()]: every character is below 128.  On such a text [re]'s
    whitespace class and [upper] are the functions of this module. *)
Definition isascii (s : string) : bool :=
  forallb (fun c => (nat_of_ascii c <? 128)%nat) (list_ascii_of_string s).

(** The text of one double quote character. *)
Definition dquote : string := String (ascii_of_nat 34) EmptyString.

(** [str(n)] for an [int]. *)
Definition str_int (z : Z) : string := NilZero.string_of_int (Z.to_int z).

End Text.

(** ** Python lists and dicts *)

Module Py.

(** A literal [dict] with string keys: the first binding of a key wins, as
    the literals of the source have no repeated key. *)
Fixpoint dict_get {A : Type} (d : list (string * A)) (k : string) : option A :=
  match d with
  | [] => None
  | (k', v) :: d' => if String.eqb k k' then Some v else dict_get d' k
  end.

(** [d[k] if k in d else k] *)
Definition dict_get_default (d : list (string * string)) (k : string) : string :=
  match dict_get d k with Some v => v | None => k end.

(** The position that [l[i]] denotes: negative indices count from the end;
    [None] is [IndexError]. *)
Definition index {A : Type} (l : list A) (i : Z) : option nat :=
  let n := Z.of_nat (length l) in
  if (0 <=? i)%Z then
    if (i <? n)%Z then Some (Z.to_nat i) else None
  else
    if (- n <=? i)%Z then Some (Z.to_nat (n + i)) else None.

(** [l[i]] *)
Definition getitem {A : Type} (l : list A) (i : Z) : option A :=
  match index l i with
  | Some j => l !! j
  | None => None
  end.

(** [len(l)] *)
Definition len {A : Type} (l : list A) : Z := Z.of_nat (length l).

(** [x in l] for a list of strings. *)
Definition contains (l : list string) (x : string) : bool :=
  existsb (String.eqb x) l.

End Py.

(** ** Data model *)

(** A column record [{'name': ..., 'type': ...}] of a Cytoscape table. *)
Record Column : Type := { col_name : string; col_type : string }.

(** [{'key': col_val, 'value': prop_val}] *)
Record Entry (K V : Type) : Type := { e_key : K; e_value : V }.

(** [{'value': col_val, 'lesser': ..., 'equal': ..., 'greater': ...}] *)
Record Point (K V : Type) : Type :=
  { p_value : K; p_lesser : V; p_equal : V; p_greater : V }.

(** The mapping document.  The keys ['map'] and ['points'] are optional. *)
Record Mapping (K V : Type) : Type :=
  { mappingType : string;
    mappingColumn : string;
    mappingColumnType : string;
    visualProperty : string;
    cargo_map : option (list (Entry K V));
    cargo_points : option (list (Point K V)) }.

Arguments e_key {K V} _.
Arguments e_value {K V} _.
Arguments p_value {K V} _.
Arguments p_lesser {K V} _.
Arguments p_equal {K V} _.
Arguments p_greater {K V} _.
Arguments mappingType {K V} _.
Arguments mappingColumn {K V} _.
Arguments mappingColumnType {K V} _.
Arguments visualProperty {K V} _.
Arguments cargo_map {K V} _.
Arguments cargo_points {K V} _.

(** Exceptions the code can raise. *)
Inductive exn : Type :=
| CyError (msg : string)
| IndexError
| TypeError.

Inductive outcome (A : Type) : Type :=
| Return (a : A)
| Raise (e : exn).

Arguments Return {A} a.
Arguments Raise {A} e.

(** Calls that leave [style_mappings.py], in the order they are made. *)
Inductive call (K V : Type) : Type :=
| GetNetworkSuid (network : option string)
| GetVisualPropertyNames
| CyrestGet (url : string)
| CyrestPut (url : string) (body : list (Mapping K V))
| CyrestPost (url : string) (body : list (Mapping K V))
| CyrestDelete (url : string)
| TableColumnExists (table_column table : string) (network : option string)
| SetVisualPropertyDefault (visual_property value style_name : string)
| StderrWrite (msg : string).

Arguments GetNetworkSuid {K V} network.
Arguments GetVisualPropertyNames {K V}.
Arguments CyrestGet {K V} url.
Arguments CyrestPut {K V} url body.
Arguments CyrestPost {K V} url body.
Arguments CyrestDelete {K V} url.
Arguments TableColumnExists {K V} table_column table network.
Arguments SetVisualPropertyDefault {K V} visual_property value style_name.
Arguments StderrWrite {K V} msg.

(** The running Cytoscape application as this module sees it. *)
Record Cytoscape (K V : Type) : Type :=
  { network_suid : option string -> Z;
    visual_property_names : list string;
    table_columns : Z -> string -> list Column;
    style_mappings : string -> list (Mapping K V);
    style_defaults : string -> list (string * string);
    calls : list (call K V) }.

Arguments network_suid {K V} _ _.
Arguments visual_property_names {K V} _.
Arguments table_columns {K V} _ _ _.
Arguments style_mappings {K V} _ _.
Arguments style_defaults {K V} _ _.
Arguments calls {K V} _.

(** ** The monad of calls to Cytoscape *)

Definition Cy (K V A : Type) : Type :=
  Cytoscape K V -> outcome A * Cytoscape K V.

Section Monad.
Context {K V : Type}.

Definition ret {A : Type} (a : A) : Cy K V A := fun cy => (Return a, cy).

Definition raise {A : Type} (e : exn) : Cy K V A := fun cy => (Raise e, cy).

Definition bind {A B : Type} (m : Cy K V A) (k : A -> Cy K V B) : Cy K V B :=
  fun cy =>
    match m cy with
    | (Return a, cy') => k a cy'
    | (Raise e, cy') => (Raise e, cy')
    end.

Definition with_calls (cy : Cytoscape K V) (cs : list (call K V)) : Cytoscape K V :=
  {| network_suid := network_suid cy;
     visual_property_names := visual_property_names cy;
     table_columns := table_columns cy;
     style_mappings := style_mappings cy;
     style_defaults := style_defaults cy;
     calls := cs |}.

Definition with_style_mappings (cy : Cytoscape K V)
    (style_name : string) (ms : list (Mapping K V)) : Cytoscape K V :=
  {| network_suid := network_suid cy;
     visual_property_names := visual_property_names cy;
     table_columns := table_columns cy;
     style_mappings := fun s => if String.eqb s style_name then ms else style_mappings cy s;
     style_defaults := style_defaults cy;
     calls := calls cy |}.

Definition with_style_defaults (cy : Cytoscape K V)
    (style_name : string) (ds : list (string * string)) : Cytoscape K V :=
  {| network_suid := network_suid cy;
     visual_property_names := visual_property_names cy;
     table_columns := table_columns cy;
     style_mappings := style_mappings cy;
     style_defaults := fun s => if String.eqb s style_name then ds else style_defaults cy s;
     calls := calls cy |}.

(** Append one call to the record of calls. *)
Definition log (c : call K V) (cy : Cytoscape K V) : Cytoscape K V :=
  with_calls cy (calls cy ++ [c]).

(** [sys.stderr.write(msg)] *)
Definition stderr_write (msg : string) : Cy K V unit :=
  fun cy => (Return tt, log (StderrWrite msg) cy).

End Monad.

Notation "'let!' x ':=' m 'in' k" := (bind m (fun x => k))
  (at level 10, x name, m at level 100, k at level 200).
Notation "'run!' m 'in' k" := (bind m (fun _ => k))
  (at level 10, m at level 100, k at level 200).

(** ** The paths of the REST endpoints, as the source writes them *)

(** ['networks/' + str(suid) + '/tables/' + table + '/columns'] *)
Definition columns_url (suid : Z) (table : string) : string :=
  "networks/" ++ Text.str_int suid ++ "/tables/" ++ table ++ "/columns".

(** ['styles/' + style_name + '/mappings'] *)
Definition mappings_url (style_name : string) : string :=
  "styles/" ++ style_name ++ "/mappings".

(** ['styles/' + style_name + '/mappings/' + visual_prop_name] *)
Definition mapping_url (style_name visual_prop_name : string) : string :=
  "styles/" ++ style_name ++ "/mappings/" ++ visual_prop_name.

(** ** The modules outside [style_mappings.py] *)

Section Collaborators.
Context {K V : Type}.

(** Modelled from the spec: [networks.get_network_suid] is not part of
    [style_mappings.py]; it resolves a network reference to its SUID. *)
Definition get_network_suid (network : option string) : Cy K V Z :=
  fun cy => (Return (network_suid cy network), log (GetNetworkSuid network) cy).

(** Modelled from the spec: [styles.get_visual_property_names] is not part of
    [style_mappings.py]; the Schema Oracle reports the names of the visual
    properties. *)
Definition get_visual_property_names : Cy K V (list string) :=
  fun cy => (Return (visual_property_names cy), log GetVisualPropertyNames cy).

(** Modelled from the spec: [commands.cyrest_get] is not part of
    [style_mappings.py]; [GET networks/{id}/tables/{table}/columns] answers
    the sequence of [{name, type}] of that table. *)
Definition cyrest_get_columns (suid : Z) (table : string) : Cy K V (list Column) :=
  fun cy =>
    (Return (table_columns cy suid table),
     log (CyrestGet (columns_url suid table)) cy).

(** Modelled from the spec: [commands.cyrest_get] is not part of
    [style_mappings.py]; [GET styles/{style}/mappings] answers the mapping
    documents of the style. *)
Definition cyrest_get_mappings (style_name : string) : Cy K V (list (Mapping K V)) :=
  fun cy =>
    (Return (style_mappings cy style_name),
     log (CyrestGet (mappings_url style_name)) cy).

Definition has_property (visual_prop : string) (m : Mapping K V) : bool :=
  String.eqb (visualProperty m) visual_prop.

(** Modelled from the spec: [commands.cyrest_put] is not part of
    [style_mappings.py]; [PUT styles/{style}/mappings/{property}] replaces
    the mapping of that property by the body and acknowledges with the
    empty text. *)
Definition cyrest_put_mapping (style_name visual_prop : string)
    (body : list (Mapping K V)) : Cy K V string :=
  fun cy =>
    let kept := filter (fun m => has_property visual_prop m = false) (style_mappings cy style_name) in
    (Return EmptyString,
     log (CyrestPut (mapping_url style_name visual_prop) body)
         (with_style_mappings cy style_name (kept ++ body))).

(** Modelled from the spec: [commands.cyrest_post] is not part of
    [style_mappings.py]; [POST styles/{style}/mappings] creates the mappings
    of the body and acknowledges with the empty text. *)
Definition cyrest_post_mappings (style_name : string)
    (body : list (Mapping K V)) : Cy K V string :=
  fun cy =>
    (Return EmptyString,
     log (CyrestPost (mappings_url style_name) body)
         (with_style_mappings cy style_name (style_mappings cy style_name ++ body))).

(** Modelled from the spec: [commands.cyrest_delete] is not part of
    [style_mappings.py]; [DELETE styles/{style}/mappings/{property}] removes
    the mapping of that property and acknowledges with the empty text. *)
Definition cyrest_delete_mapping (style_name visual_prop : string) : Cy K V string :=
  fun cy =>
    let kept := filter (fun m => has_property visual_prop m = false) (style_mappings cy style_name) in
    (Return EmptyString,
     log (CyrestDelete (mapping_url style_name visual_prop))
         (with_style_mappings cy style_name kept)).

(** Modelled from the spec: [table_column_exists] of the utilities is not
    part of [style_mappings.py]; it tells whether the column is in the
    per-entity table ([default] followed by the entity) of the network. *)
Definition table_column_exists (table_column table : string)
    (network : option string) : Cy K V bool :=
  fun cy =>
    (Return (Py.contains
               (col_name <$> table_columns cy (network_suid cy network) ("default" ++ table))
               table_column),
     log (TableColumnExists table_column table network) cy).

(** Modelled from the spec: [style_defaults.set_visual_property_default] is
    not part of [style_mappings.py]; it pushes a style-wide default value
    of a visual property. *)
Definition set_visual_property_default (visual_property value style_name : string)
    : Cy K V unit :=
  fun cy =>
    (Return tt,
     log (SetVisualPropertyDefault visual_property value style_name)
         (with_style_defaults cy style_name
            ((visual_property, value) :: style_defaults cy style_name))).

End Collaborators.

(** ** I. General functions *)

Section General.
Context {K V : Type}.

Definition MAPPING_TYPES : list (string * string) :=
  [("c", "continuous"); ("d", "discrete"); ("p", "passthrough")].

Definition PROPERTY_NAMES : list (string * string) :=
  [("EDGE_COLOR", "EDGE_UNSELECTED_PAINT"); ("EDGE_THICKNESS", "EDGE_WIDTH");
   ("NODE_BORDER_COLOR", "NODE_BORDER_PAINT");
   ("NODE_BORDER_LINE_TYPE", "NODE_BORDER_STROKE")].

(** The visual property name after [re.sub], [upper] and the alias table. *)
Definition normalize_property (visual_prop : string) : string :=
  let visual_prop_name := Text.upper (Text.re_sub_spaces visual_prop) in
  Py.dict_get_default PROPERTY_NAMES visual_prop_name.

(** ['default' + visual_prop_name.split('_')[0].lower()] *)
Definition table_of (visual_prop_name : string) : string :=
  "default" ++ Text.lower (Text.split_first visual_prop_name).

(** The loop over the columns: the type of the first column of that name. *)
Fixpoint column_type (res : list Column) (table_column : string) : option string :=
  match res with
  | [] => None
  | col :: res' =>
      if String.eqb (col_name col) table_column then Some (col_type col)
      else column_type res' table_column
  end.

Definition unknown_property_msg (visual_prop_name : string) : string :=
  "Could not find " ++ visual_prop_name
    ++ ". Run get_visual_property_names() to retrieve property names.".

Definition unknown_column_msg (table_column table : string) : string :=
  "Could not find " ++ table_column ++ " column in " ++ table ++ " table.".

Definition mismatch_msg : string :=
  "Error: table.column.values and visual.prop.values don't match up.".

(** [{'key': col_val, 'value': prop_val}] *)
Definition entry (col_val : K) (prop_val : V) : Entry K V :=
  {| e_key := col_val; e_value := prop_val |}.

(** [{'value': col_val, 'lesser': prop_val, 'equal': prop_val, 'greater': prop_val}] *)
Definition waypoint (col_val : K) (prop_val : V) : Point K V :=
  {| p_value := col_val; p_lesser := prop_val; p_equal := prop_val; p_greater := prop_val |}.

Definition set_lesser (pt : Point K V) (v : V) : Point K V :=
  {| p_value := p_value pt; p_lesser := v; p_equal := p_equal pt; p_greater := p_greater pt |}.

Definition set_greater (pt : Point K V) (v : V) : Point K V :=
  {| p_value := p_value pt; p_lesser := p_lesser pt; p_equal := p_equal pt; p_greater := v |}.

(** [points[i][slot] = v]: [IndexError] when [points[i]] does not exist. *)
Definition setitem_slot (set : Point K V -> V -> Point K V)
    (points : list (Point K V)) (i : Z) (v : V) : outcome (list (Point K V)) :=
  match Py.index points i with
  | Some j =>
      match points !! j with
      | Some pt => Return (<[j := set pt v]> points)
      | None => Raise IndexError
      end
  | None => Raise IndexError
  end.

(** The branch [prop_val_count - col_val_count == 2]. *)
Definition points_with_extremes (table_column_values : list K)
    (visual_prop_values : list V) : outcome (list (Point K V)) :=
  let col_val_count := Py.len table_column_values in
  let matched_visual_prop_values := drop 1 visual_prop_values in
  let points := zip_with waypoint table_column_values matched_visual_prop_values in
  match Py.getitem visual_prop_values 0 with
  | None => Raise IndexError
  | Some first =>
      match setitem_slot set_lesser points 0 first with
      | Raise e => Raise e
      | Return points =>
          match Py.getitem visual_prop_values (-1) with
          | None => Raise IndexError
          | Some last => setitem_slot set_greater points (col_val_count - 1) last
          end
      end
  end.

(** The branch [mapping_type_name == 'continuous']. *)
Definition continuous_points (table_column_values : option (list K))
    (visual_prop_values : option (list V)) : Cy K V (list (Point K V)) :=
  match visual_prop_values with
  | None => raise TypeError
  | Some visual_prop_values =>
      match table_column_values with
      | None => raise TypeError
      | Some table_column_values =>
          let prop_val_count := Py.len visual_prop_values in
          let col_val_count := Py.len table_column_values in
          if (prop_val_count - col_val_count =? 2)%Z then
            match points_with_extremes table_column_values visual_prop_values with
            | Return points => ret points
            | Raise e => raise e
            end
          else if (prop_val_count - col_val_count =? 0)%Z then
            ret (zip_with waypoint table_column_values visual_prop_values)
          else
            run! stderr_write mismatch_msg in
            raise (CyError mismatch_msg)
      end
  end.

(** The branch [mapping_type_name == 'discrete']. *)
Definition discrete_map (table_column_values : option (list K))
    (visual_prop_values : option (list V)) : Cy K V (list (Entry K V)) :=
  match table_column_values with
  | None => raise TypeError
  | Some table_column_values =>
      match visual_prop_values with
      | None => raise TypeError
      | Some visual_prop_values =>
          ret (zip_with entry table_column_values visual_prop_values)
      end
  end.

Definition map_visual_property (visual_prop table_column mapping_type : string)
    (table_column_values : option (list K)) (visual_prop_values : option (list V))
    (network : option string) : Cy K V (Mapping K V) :=
  let! suid := get_network_suid network in
  let mapping_type_name := Py.dict_get_default MAPPING_TYPES mapping_type in
  let visual_prop_name := normalize_property visual_prop in
  let! names := get_visual_property_names in
  if negb (Py.contains names visual_prop_name) then
    raise (CyError (unknown_property_msg visual_prop_name))
  else
    let table := table_of visual_prop_name in
    let! res := cyrest_get_columns suid table in
    match column_type res table_column with
    | None => raise (CyError (unknown_column_msg table_column table))
    | Some table_column_type =>
        let visual_prop_map cargo_map cargo_points :=
          {| mappingType := mapping_type_name;
             mappingColumn := table_column;
             mappingColumnType := table_column_type;
             visualProperty := visual_prop_name;
             cargo_map := cargo_map;
             cargo_points := cargo_points |} in
        if String.eqb mapping_type_name "discrete" then
          let! map := discrete_map table_column_values visual_prop_values in
          ret (visual_prop_map (Some map) None)
        else if String.eqb mapping_type_name "continuous" then
          let! points := continuous_points table_column_values visual_prop_values in
          ret (visual_prop_map None (Some points))
        else
          ret (visual_prop_map None None)
    end.

Definition update_style_mapping (style_name : string) (mapping : Mapping K V)
    : Cy K V string :=
  let visual_prop_name := visualProperty mapping in
  let! res := cyrest_get_mappings style_name in
  let vp_list := visualProperty <$> res in
  let exists_ := Py.contains vp_list visual_prop_name in
  if exists_ then cyrest_put_mapping style_name visual_prop_name [mapping]
  else cyrest_post_mappings style_name [mapping].

Definition delete_style_mapping (style_name visual_prop : string)
    : Cy K V (option string) :=
  let! res := cyrest_get_mappings style_name in
  let vp_list := visualProperty <$> res in
  let exists_ := Py.contains vp_list visual_prop in
  if exists_ then
    let! res := cyrest_delete_mapping style_name visual_prop in
    ret (Some res)
  else ret None.

Definition get_style_mapping (style_name visual_prop : string)
    : Cy K V (Mapping K V) :=
  let! res := cyrest_get_mappings style_name in
  match find (fun prop => String.eqb (visualProperty prop) visual_prop) res with
  | Some prop => ret prop
  | None =>
      raise (CyError ("Property " ++ Text.dquote ++ visual_prop ++ Text.dquote
                        ++ " does not exist in style " ++ Text.dquote
                        ++ style_name ++ Text.dquote))
  end.

Definition get_style_all_mappings (style_name : string) : Cy K V (list (Mapping K V)) :=
  cyrest_get_mappings style_name.

End General.

(** ** II. Specific functions *)

Section Specific.
Context {K : Type}.

(** The last parameter [supported_mappings] defaults to [['c', 'd', 'p']];
    [str] is Python's [str] on the values of [range_map]. *)
Definition _update_style_mapping {R : Type} (str : R -> string)
    (visual_prop_name table_column : string)
    (table_column_values : option (list K)) (range_map : option (list R))
    (mapping_type style_name : string) (network : option string)
    (supported_mappings : list string) : Cy K string (option string) :=
  let range_map : option (list string) :=
    match range_map with
    | Some range_map => Some (List.map str range_map)
    | None => None
    end in
  let apply mvp :=
    let! res := update_style_mapping style_name mvp in
    ret (Some res) in
  if Py.contains ["continuous"; "c"; "interpolate"] mapping_type then
    if Py.contains supported_mappings "c" then
      let! mvp := map_visual_property visual_prop_name table_column "c"
                    table_column_values range_map network in
      apply mvp
    else
      raise (CyError ("Continuous mapping of " ++ visual_prop_name
                        ++ " values is not supported."))
  else if Py.contains ["discrete"; "d"; "lookup"] mapping_type then
    if Py.contains supported_mappings "d" then
      let! mvp := map_visual_property visual_prop_name table_column "d"
                    table_column_values range_map network in
      apply mvp
    else
      raise (CyError ("Discrete mapping of " ++ visual_prop_name
                        ++ " values is not supported."))
  else if Py.contains ["passthrough"; "p"] mapping_type then
    if Py.contains supported_mappings "p" then
      let! mvp := map_visual_property visual_prop_name table_column "p"
                    (Some []) (Some []) network in
      apply mvp
    else
      raise (CyError ("Passthrough mapping of " ++ visual_prop_name
                        ++ " values is not supported."))
  else
    run! stderr_write "mapping_type not recognized." in
    ret None.

Definition all_mappings : list string := ["c"; "d"; "p"].

(** [o < 0 or o > 255] *)
Definition out_of_range (o : Z) : bool := (o <? 0)%Z || (255 <? o)%Z.

Definition column_missing_msg : string :=
  "Table column does not exist. Please try again.".

Definition set_node_border_opacity_mapping (table_column : string)
    (table_column_values : option (list K)) (opacities : option (list Z))
    (mapping_type : string) (default_opacity : option Z) (style_name : string)
    (network : option string) : Cy K string (option string) :=
  let! found := table_column_exists table_column "node" network in
  if negb found then raise (CyError column_missing_msg)
  else if existsb out_of_range (default [] opacities) then
    run! stderr_write "Error: opacities must be between 0 and 255." in
    ret None
  else
    let mappings :=
      _update_style_mapping Text.str_int "NODE_BORDER_TRANSPARENCY" table_column
        table_column_values opacities mapping_type style_name network all_mappings in
    match default_opacity with
    | Some default_opacity =>
        if out_of_range default_opacity then
          run! stderr_write "Error: opacity must be between 0 and 255." in
          ret None
        else
          run! set_visual_property_default "NODE_BORDER_TRANSPARENCY"
                 (Text.str_int default_opacity) style_name in
          mappings
    | None => mappings
    end.

Definition set_node_combo_opacity_mapping (table_column : string)
    (table_column_values : option (list K)) (opacities : option (list Z))
    (mapping_type : string) (default_opacity : option Z) (style_name : string)
    (network : option string) : Cy K string (option string) :=
  let! found := table_column_exists table_column "node" network in
  if negb found then raise (CyError column_missing_msg)
  else if existsb out_of_range (default [] opacities) then
    run! stderr_write "Error: opacities must be between 0 and 255." in
    ret None
  else
    let mappings :=
      run! _update_style_mapping Text.str_int "NODE_TRANSPARENCY" table_column
             table_column_values opacities mapping_type style_name network all_mappings in
      run! _update_style_mapping Text.str_int "NODE_BORDER_TRANSPARENCY" table_column
             table_column_values opacities mapping_type style_name network all_mappings in
      let! res := _update_style_mapping Text.str_int "NODE_LABEL_TRANSPARENCY" table_column
             table_column_values opacities mapping_type style_name network all_mappings in
      ret res in
    match default_opacity with
    | Some default_opacity =>
        if out_of_range default_opacity then
          run! stderr_write "Error: opacity must be between 0 and 255." in
          ret None
        else
          run! set_visual_property_default "NODE_TRANSPARENCY"
                 (Text.str_int default_opacity) style_name in
          run! set_visual_property_default "NODE_BORDER_TRANSPARENCY"
                 (Text.str_int default_opacity) style_name in
          run! set_visual_property_default "NODE_LABEL_TRANSPARENCY"
                 (Text.str_int default_opacity) style_name in
          mappings
    | None => mappings
    end.

Definition set_node_fill_opacity_mapping (table_column : string)
    (table_column_values : option (list K)) (opacities : option (list Z))
    (mapping_type : string) (default_opacity : option Z) (style_name : string)
    (network : option string) : Cy K string (option string) :=
  let! found := table_column_exists table_column "node" network in
  if negb found then raise (CyError column_missing_msg)
  else if existsb out_of_range (default [] opacities) then
    run! stderr_write "Error: opacities must be between 0 and 255." in
    ret None
  else
    let mappings :=
      _update_style_mapping Text.str_int "NODE_TRANSPARENCY" table_column
        table_column_values opacities mapping_type style_name network all_mappings in
    match default_opacity with
    | Some default_opacity =>
        if out_of_range default_opacity then
          run! stderr_write "Error: opacity must be between 0 and 255." in
          ret None
        else
          run! set_visual_property_default "NODE_TRANSPARENCY"
                 (Text.str_int default_opacity) style_name in
          mappings
    | None => mappings
    end.

Definition set_node_font_face_mapping (table_column : string)
    (table_column_values : option (list K)) (fonts : option (list string))
    (mapping_type : string) (default_font : option string) (style_name : string)
    (network : option string) : Cy K string (option string) :=
  let! found := table_column_exists table_column "node" network in
  if negb found then raise (CyError column_missing_msg)
  else
    let mappings :=
      _update_style_mapping (fun font : string => font) "NODE_LABEL_FONT_FACE" table_column
        table_column_values fonts mapping_type style_name network ["d"; "p"] in
    match default_font with
    | Some default_font =>
        run! set_visual_property_default "NODE_LABEL_FONT_FACE" default_font style_name in
        mappings
    | None => mappings
    end.

End Specific.

(** ** A session used by the examples *)

Module Session.

Definition node_columns : list Column :=
  [ {| col_name := "SUID"; col_type := "Long" |};
    {| col_name := "name"; col_type := "String" |};
    {| col_name := "Degree"; col_type := "Integer" |};
    {| col_name := "score"; col_type := "Double" |} ].

Definition edge_columns : list Column :=
  [ {| col_name := "SUID"; col_type := "Long" |};
    {| col_name := "interaction"; col_type := "String" |} ].

Definition columns (suid : Z) (table : string) : list Column :=
  if String.eqb table "defaultnode" then node_columns
  else if String.eqb table "defaultedge" then edge_columns
  else [].

Definition label_passthrough : Mapping Z string :=
  {| mappingType := "passthrough"; mappingColumn := "name";
     mappingColumnType := "String"; visualProperty := "NODE_LABEL";
     cargo_map := None; cargo_points := None |}.

(** A network with SUID 52 and one style, which maps the node label. *)
Definition galFiltered : Cytoscape Z string :=
  {| network_suid := fun _ => 52%Z;
     visual_property_names :=
       ["EDGE_UNSELECTED_PAINT"; "EDGE_WIDTH"; "NODE_BORDER_PAINT";
        "NODE_BORDER_TRANSPARENCY"; "NODE_FILL_COLOR"; "NODE_LABEL";
        "NODE_LABEL_TRANSPARENCY"; "NODE_SHAPE"; "NODE_TRANSPARENCY"];
     table_columns := columns;
     style_mappings :=
       fun s => if String.eqb s "galFiltered Style" then [label_passthrough] else [];
     style_defaults := fun _ => [];
     calls := [] |}.

End Session.

(** ** The name of the property in the words of the specification

    The specification describes the normalization of a property name as:
    collapse whitespace to underscores, uppercase, apply the alias table.
    The definitions below follow these words and are compared with
    [normalize_property], which follows the source. *)

Module Spec.

(** The whitespace of ASCII by its codes: TAB, LF, VT, FF, CR, FS, GS, RS,
    US and the space. *)
Definition whitespace : list nat := [9; 10; 11; 12; 13; 28; 29; 30; 31; 32]%nat.

Definition is_whitespace (c : ascii) : bool :=
  existsb (Nat.eqb (nat_of_ascii c)) whitespace.

Definition starts_with_whitespace (s : string) : bool :=
  match s with
  | EmptyString => false
  | String c _ => is_whitespace c
  end.

(** Collapse whitespace to underscores: a whitespace character that is
    followed by another one is dropped, and the last one of a run becomes
    the underscore. *)
Fixpoint collapse (s : string) : string :=
  match s with
  | EmptyString => EmptyString
  | String c s' =>
      if is_whitespace c then
        if starts_with_whitespace s' then collapse s' else String "_" (collapse s')
      else String c (collapse s')
  end.

Definition small_letters : string := "abcdefghijklmnopqrstuvwxyz".
Definition capital_letters : string := "ABCDEFGHIJKLMNOPQRSTUVWXYZ".

(** The capital letter at the place that [c] has among the small letters,
    and [c] itself when it is not a small letter. *)
Fixpoint capital (small capitals : string) (c : ascii) : ascii :=
  match small, capitals with
  | String a small', String b capitals' =>
      if Ascii.eqb c a then b else capital small' capitals' c
  | _, _ => c
  end.

Fixpoint uppercase (s : string) : string :=
  match s with
  | EmptyString => EmptyString
  | String c s' => String (capital small_letters capital_letters c) (uppercase s')
  end.

(** The alias table: four friendly names and the name of Cytoscape for
    each; every other name stands for itself. *)
Definition alias (name : string) : string :=
  if String.eqb name "EDGE_COLOR" then "EDGE_UNSELECTED_PAINT"
  else if String.eqb name "EDGE_THICKNESS" then "EDGE_WIDTH"
  else if String.eqb name "NODE_BORDER_COLOR" then "NODE_BORDER_PAINT"
  else if String.eqb name "NODE_BORDER_LINE_TYPE" then "NODE_BORDER_STROKE"
  else name.

Definition normalize (property : string) : string :=
  alias (uppercase (collapse property)).

End Spec.

(** ** Vocabulary of the statements *)

Section Vocabulary.
Context {K V : Type}.

(** The normalized name is in the Schema Oracle's set of names. *)
Definition known_property (cy : Cytoscape K V) (visual_prop : string) : Prop :=
  normalize_property visual_prop ∈ visual_property_names cy.

(** The columns of the table that the prefix of the property selects. *)
Definition backing_table (cy : Cytoscape K V) (visual_prop : string)
    (network : option string) : list Column :=
  table_columns cy (network_suid cy network) (table_of (normalize_property visual_prop)).

(** The declared type of the column in the backing table, if it is there. *)
Definition declared_type (cy : Cytoscape K V) (visual_prop table_column : string)
    (network : option string) : option string :=
  column_type (backing_table cy visual_prop network) table_column.

(** The two errors of the validation of property and column. *)
Definition validation_error (visual_prop table_column : string) (e : exn) : Prop :=
  e = CyError (unknown_property_msg (normalize_property visual_prop))
  ∨ e = CyError (unknown_column_msg table_column
                   (table_of (normalize_property visual_prop))).

(** The three calls by which the builder reads the schema. *)
Definition builder_reads (cy : Cytoscape K V) (visual_prop : string)
    (network : option string) : list (call K V) :=
  [ GetNetworkSuid network; GetVisualPropertyNames;
    CyrestGet (columns_url (network_suid cy network)
                 (table_of (normalize_property visual_prop))) ].

(** The calls that write to Cytoscape. *)
Definition is_write (c : call K V) : bool :=
  match c with
  | CyrestPut _ _ | CyrestPost _ _ | CyrestDelete _
  | SetVisualPropertyDefault _ _ _ => true
  | _ => false
  end.

(** The style [style_name] holds the document [m]. *)
Definition applied (cy : Cytoscape K V) (style_name : string) (m : Mapping K V) : Prop :=
  m ∈ style_mappings cy style_name.

(** The document without cargo that the builder starts from. *)
Definition header (visual_prop table_column mapping_type ty : string)
    (cargo_map : option (list (Entry K V))) (cargo_points : option (list (Point K V)))
    : Mapping K V :=
  {| mappingType := Py.dict_get_default MAPPING_TYPES mapping_type;
     mappingColumn := table_column;
     mappingColumnType := ty;
     visualProperty := normalize_property visual_prop;
     cargo_map := cargo_map;
     cargo_points := cargo_points |}.

(** The state when the builder has read the schema. *)
Definition after_reads (cy : Cytoscape K V) (visual_prop : string)
    (network : option string) : Cytoscape K V :=
  with_calls cy (calls cy ++ builder_reads cy visual_prop network).

(** What the cargo step can raise. *)
Definition cargo_error (e : exn) : Prop :=
  e = TypeError ∨ e = IndexError ∨ e = CyError mismatch_msg.

(** The column is in the node table of the network. *)
Definition node_column (cy : Cytoscape K V) (table_column : string)
    (network : option string) : Prop :=
  table_column ∈ (col_name <$> table_columns cy (network_suid cy network) "defaultnode").

(** Two states agree on everything but the record of calls, the mappings
    and the defaults of the styles. *)
Definition same_schema (cy cy' : Cytoscape K V) : Prop :=
  network_suid cy' = network_suid cy
  ∧ visual_property_names cy' = visual_property_names cy
  ∧ table_columns cy' = table_columns cy.

End Vocabulary.

Section OpacityVocabulary.
Context {K : Type}.

(** An opacity in the closed range from 0 to 255. *)
Definition in_range (o : Z) : Prop := (0 ≤ o ≤ 255)%Z.

(** The state of the combined opacity function when its checks have passed
    and the default, if any, has been pushed for the three properties. *)
Definition combo_checked (cy : Cytoscape K string) (table_column : string)
    (network : option string) (default_opacity : option Z) (style_name : string)
    : Cytoscape K string :=
  let cy1 := log (TableColumnExists table_column "node" network) cy in
  match default_opacity with
  | None => cy1
  | Some default_opacity =>
      snd ((run! set_visual_property_default "NODE_TRANSPARENCY"
                   (Text.str_int default_opacity) style_name in
            run! set_visual_property_default "NODE_BORDER_TRANSPARENCY"
                   (Text.str_int default_opacity) style_name in
            set_visual_property_default "NODE_LABEL_TRANSPARENCY"
              (Text.str_int default_opacity) style_name) cy1)
  end.

(** The state of a single opacity function when its checks have passed and
    the default, if any, has been pushed for its property. *)
Definition opacity_checked (visual_prop_name : string) (cy : Cytoscape K string)
    (table_column : string) (network : option string) (default_opacity : option Z)
    (style_name : string) : Cytoscape K string :=
  let cy1 := log (TableColumnExists table_column "node" network) cy in
  match default_opacity with
  | None => cy1
  | Some default_opacity =>
      snd (set_visual_property_default visual_prop_name
             (Text.str_int default_opacity) style_name cy1)
  end.

(** The state and result of a call that an opacity check rejects. *)
Definition rejected (cy : Cytoscape K string) (table_column : string)
    (network : option string) (msg : string)
    : outcome (option string) * Cytoscape K string :=
  (Return None,
   with_calls cy (calls cy ++ [TableColumnExists table_column "node" network;
                               StderrWrite msg])).

End OpacityVocabulary.

(** ** Vocabulary of the further properties *)

Section FurtherVocabulary.
Context {K V : Type}.

(** The visual properties that a style maps, in the order of its documents. *)
Definition mapped_properties (cy : Cytoscape K V) (style_name : string) : list string :=
  visualProperty <$> style_mappings cy style_name.

(** The style holds at most one document per visual property. *)
Definition one_per_property (cy : Cytoscape K V) (style_name : string) : Prop :=
  NoDup (mapped_properties cy style_name).

(** Every document of the style carries a name as the builder writes it. *)
Definition builder_named (cy : Cytoscape K V) (style_name : string) : Prop :=
  Forall (fun m => ∃ visual_prop, visualProperty m = normalize_property visual_prop)
    (style_mappings cy style_name).

(** A text with a whitespace character or a lower-case letter in it. *)
Definition friendly (s : string) : Prop :=
  Exists (fun c => Text.is_space c = true ∨ Text.is_lower c = true)
    (list_ascii_of_string s).

(** The message of [get_style_mapping] for a property that is not mapped. *)
Definition not_mapped_msg (visual_prop style_name : string) : string :=
  "Property " ++ Text.dquote ++ visual_prop ++ Text.dquote
    ++ " does not exist in style " ++ Text.dquote ++ style_name ++ Text.dquote.

(** The texts that the dispatcher takes for a continuous, a discrete and a
    passthrough mapping. *)
Definition continuous_names : list string := ["continuous"; "c"; "interpolate"].
Definition discrete_names : list string := ["discrete"; "d"; "lookup"].
Definition passthrough_names : list string := ["passthrough"; "p"].

End FurtherVocabulary.

Section FacadeVocabulary.
Context {K : Type}.

(** The call that pushes a default value, if one is given. *)
Definition pushed_default (visual_prop_name : string) (value : option string)
    (style_name : string) : list (call K string) :=
  match value with
  | None => []
  | Some value => [SetVisualPropertyDefault visual_prop_name value style_name]
  end.

(** The state of a function of one property when the column has been found
    and the default value, if any, has been pushed. *)
Definition checked (visual_prop_name : string) (cy : Cytoscape K string)
    (table_column : string) (network : option string) (value : option string)
    (style_name : string) : Cytoscape K string :=
  let cy1 := log (TableColumnExists table_column "node" network) cy in
  match value with
  | None => cy1
  | Some value => snd (set_visual_property_default visual_prop_name value style_name cy1)
  end.

(** The text of an optional opacity. *)
Definition opacity_text (default_opacity : option Z) : option string :=
  match default_opacity with
  | None => None
  | Some default_opacity => Some (Text.str_int default_opacity)
  end.

End FacadeVocabulary.

(** ** A session with the font face property, used by the further examples *)

Module FontSession.

(** The session [galFiltered] of a Cytoscape that also reports the visual
    property of the font face of the node label. *)
Definition galFiltered_fonts : Cytoscape Z string :=
  {| network_suid := network_suid Session.galFiltered;
     visual_property_names :=
       "NODE_LABEL_FONT_FACE" :: visual_property_names Session.galFiltered;
     table_columns := table_columns Session.galFiltered;
     style_mappings := style_mappings Session.galFiltered;
     style_defaults := style_defaults Session.galFiltered;
     calls := [] |}.

(** A discrete mapping of the node shape. *)
Definition shape_by_degree : Mapping Z string :=
  {| mappingType := "discrete"; mappingColumn := "Degree";
     mappingColumnType := "Integer"; visualProperty := "NODE_SHAPE";
     cargo_map := Some [ {| e_key := 1%Z; e_value := "ellipse" |};
                         {| e_key := 2%Z; e_value := "rectangle" |} ];
     cargo_points := None |}.

End FontSession.

(** Membership in a list that is written out. *)
Ltac in_list :=
  repeat (apply elem_of_cons; first [left; reflexivity | right]).

(** Bring the record of calls of a state to the form [calls cy ++ l]. *)
Ltac calls_norm :=
  unfold log, with_calls; simpl; rewrite <- ?app_assoc; simpl.

(** ** Texts and lists *)

Lemma upper_char_not_lower (c : ascii) : Text.is_lower (Text.upper_char c) = false.
Proof. destruct c as [[] [] [] [] [] [] [] []]; reflexivity. Qed.

Lemma upper_char_space (c : ascii) : Text.is_space (Text.upper_char c) = Text.is_space c.
Proof. destruct c as [[] [] [] [] [] [] [] []]; reflexivity. Qed.

(** After [re.sub] no whitespace is left. *)
Lemma sub_spaces_no_space (in_run : bool) (s : string) :
  Forall (fun c => Text.is_space c = false) (list_ascii_of_string (Text.sub_spaces in_run s)).
Proof.
  revert in_run. induction s as [| c s IH]; intros in_run; simpl; [constructor |].
  destruct (Text.is_space c) eqn:E.
  - destruct in_run; [apply IH |]. simpl. constructor; [reflexivity | apply IH].
  - simpl. constructor; [exact E | apply IH].
Qed.

(** A text without whitespace is left as it is by [re.sub]. *)
Lemma sub_spaces_id (s : string) :
  Forall (fun c => Text.is_space c = false) (list_ascii_of_string s) →
  Text.re_sub_spaces s = s.
Proof.
  unfold Text.re_sub_spaces. induction s as [| c s IH]; simpl; [done |].
  intros H. apply Forall_cons in H as [Hc Hs]. rewrite Hc. f_equal. by apply IH.
Qed.

(** After [re.sub] and [upper] neither whitespace nor a lower-case letter is
    left. *)
Lemma upper_sub_spaces_chars (s : string) :
  Forall (fun c => Text.is_space c = false ∧ Text.is_lower c = false)
    (list_ascii_of_string (Text.upper (Text.re_sub_spaces s))).
Proof.
  unfold Text.re_sub_spaces. generalize (sub_spaces_no_space false s).
  generalize (Text.sub_spaces false s). intros t.
  induction t as [| c t IH]; simpl; [constructor |].
  intros H. apply Forall_cons in H as [Hc Ht].
  constructor; [| by apply IH].
  split; [by rewrite upper_char_space | apply upper_char_not_lower].
Qed.

(** The normalization of the source is the one of the specification's
    words. *)
Lemma is_whitespace_is_space (c : ascii) : Spec.is_whitespace c = Text.is_space c.
Proof. destruct c as [[] [] [] [] [] [] [] []]; reflexivity. Qed.

Lemma capital_upper_char (c : ascii) :
  Spec.capital Spec.small_letters Spec.capital_letters c = Text.upper_char c.
Proof. destruct c as [[] [] [] [] [] [] [] []]; reflexivity. Qed.

Lemma uppercase_upper (s : string) : Spec.uppercase s = Text.upper s.
Proof.
  induction s as [| c s IH]; [done |].
  cbn [Spec.uppercase Text.upper]. by rewrite capital_upper_char, IH.
Qed.

Lemma sub_spaces_after_run (s : string) :
  Spec.starts_with_whitespace s = false →
  Text.sub_spaces true s = Text.sub_spaces false s.
Proof.
  destruct s as [| c s]; simpl; [done |].
  rewrite is_whitespace_is_space. by intros ->.
Qed.

Lemma collapse_sub_spaces (s : string) :
  Spec.collapse s = Text.sub_spaces false s
  ∧ (Spec.starts_with_whitespace s = true →
     Spec.collapse s = String "_" (Text.sub_spaces true s)).
Proof.
  induction s as [| c s [IH1 IH2]]; [done |].
  assert (Hrun : Spec.is_whitespace c = true →
            Spec.collapse (String c s) = String "_" (Text.sub_spaces true s)).
  { intros Hc. simpl. rewrite Hc.
    destruct (Spec.starts_with_whitespace s) eqn:Hs.
    - by apply IH2.
    - by rewrite IH1, sub_spaces_after_run. }
  split.
  - simpl Text.sub_spaces. rewrite <- is_whitespace_is_space.
    destruct (Spec.is_whitespace c) eqn:Hc; [by apply Hrun |].
    simpl. by rewrite Hc, IH1.
  - simpl Spec.starts_with_whitespace. intros Hc. rewrite (Hrun Hc).
    simpl. by rewrite <- is_whitespace_is_space, Hc.
Qed.

Lemma alias_dict_get_default (name : string) :
  Spec.alias name = Py.dict_get_default PROPERTY_NAMES name.
Proof.
  unfold Spec.alias, Py.dict_get_default, PROPERTY_NAMES. simpl.
  repeat match goal with
    | |- context [String.eqb name ?k] => destruct (String.eqb name k); [done |]
    end.
  done.
Qed.

Lemma normalize_property_worded (visual_prop : string) :
  normalize_property visual_prop = Spec.normalize visual_prop.
Proof.
  unfold normalize_property, Spec.normalize, Text.re_sub_spaces.
  rewrite alias_dict_get_default, uppercase_upper.
  by destruct (collapse_sub_spaces visual_prop) as [-> _].
Qed.

Lemma contains_elem_of (l : list string) (x : string) :
  Py.contains l x = true ↔ x ∈ l.
Proof.
  unfold Py.contains. rewrite existsb_exists. split.
  - intros (y & Hy & Heq). apply String.eqb_eq in Heq. subst y.
    by apply list_elem_of_In.
  - intros Hx. exists x. split; [by apply list_elem_of_In | apply String.eqb_refl].
Qed.

Lemma contains_false (l : list string) (x : string) :
  Py.contains l x = false ↔ x ∉ l.
Proof.
  rewrite <- contains_elem_of. destruct (Py.contains l x); split; congruence.
Qed.

Lemma column_type_None (res : list Column) (table_column : string) :
  column_type res table_column = None ↔ table_column ∉ (col_name <$> res).
Proof.
  induction res as [| col res IH]; simpl.
  - split; [intros _; apply not_elem_of_nil | done].
  - destruct (String.eqb_spec (col_name col) table_column) as [Heq | Hne].
    + split; [done |]. intros Hnot. exfalso. apply Hnot. rewrite Heq. apply elem_of_cons. by left.
    + rewrite IH, not_elem_of_cons. split; [| by intros [_ ?]].
      intros ?. split; [| done]. intros E. apply Hne. by rewrite E.
Qed.

Lemma column_type_Some (res : list Column) (table_column ty : string) :
  column_type res table_column = Some ty →
  ∃ col, col ∈ res ∧ col_name col = table_column ∧ col_type col = ty.
Proof.
  induction res as [| col res IH]; simpl; [done |].
  destruct (String.eqb_spec (col_name col) table_column) as [Heq | Hne].
  - intros [= <-]. exists col. split; [apply elem_of_cons; by left | done].
  - intros H. destruct (IH H) as (c & Hc & Hn & Ht).
    exists c. split; [apply elem_of_cons; by right | done].
Qed.

Lemma column_type_is_Some (res : list Column) (table_column : string) :
  is_Some (column_type res table_column) ↔ table_column ∈ (col_name <$> res).
Proof.
  rewrite <- not_eq_None_Some, column_type_None.
  split; [apply dec_stable | by intros ? ?].
Qed.

(** The type that the loop finds is the one of the first column of that
    name. *)
Lemma column_type_split (res : list Column) (table_column ty : string) :
  column_type res table_column = Some ty →
  ∃ before col after,
    res = (before ++ col :: after)%list
    ∧ col_name col = table_column
    ∧ (table_column ∉ (col_name <$> before))
    ∧ col_type col = ty.
Proof.
  induction res as [| c res IH]; simpl; [done |].
  destruct (String.eqb_spec (col_name c) table_column) as [Heq | Hne].
  - intros [= <-]. exists [], c, res. repeat split; [done |]. apply not_elem_of_nil.
  - intros H. destruct (IH H) as (before & col & after & -> & Hname & Hnot & Hty).
    exists (c :: before), col, after. repeat split; [done | | done].
    simpl. apply not_elem_of_cons. split; [| done]. intros E. apply Hne. by rewrite E.
Qed.

Lemma index_nonneg {A : Type} (l : list A) (i : nat) :
  (i < length l)%nat → Py.index l (Z.of_nat i) = Some i.
Proof.
  intros Hi. unfold Py.index.
  destruct (Z.leb_spec 0 (Z.of_nat i)); [| lia].
  destruct (Z.ltb_spec (Z.of_nat i) (Z.of_nat (length l))); [| lia].
  by rewrite Nat2Z.id.
Qed.

Lemma getitem_nonneg {A : Type} (l : list A) (i : nat) :
  (i < length l)%nat → Py.getitem l (Z.of_nat i) = l !! i.
Proof. intros Hi. unfold Py.getitem. by rewrite index_nonneg. Qed.

Lemma getitem_minus_one {A : Type} (l : list A) :
  l ≠ [] → Py.getitem l (-1) = last l.
Proof.
  intros Hne. unfold Py.getitem, Py.index.
  assert (0 < length l)%nat by (destruct l; [done | simpl; lia]).
  destruct (Z.leb_spec 0 (-1)); [lia |].
  destruct (Z.leb_spec (- Z.of_nat (length l)) (-1)); [| lia].
  rewrite last_lookup. f_equal. lia.
Qed.

(** ** The builder *)

Section Builder.
Context {K V : Type}.
Implicit Types (cy : Cytoscape K V) (cols : option (list K)) (props : option (list V)).

Lemma map_visual_property_unknown_property cy visual_prop table_column mapping_type
    cols props network :
  ¬ known_property cy visual_prop →
  map_visual_property visual_prop table_column mapping_type cols props network cy
  = (Raise (CyError (unknown_property_msg (normalize_property visual_prop))),
     with_calls cy (calls cy ++ [GetNetworkSuid network; GetVisualPropertyNames])).
Proof.
  intros Hunknown. apply contains_false in Hunknown.
  unfold map_visual_property, bind, get_network_suid, get_visual_property_names.
  simpl. rewrite Hunknown. simpl. unfold raise.
  by calls_norm.
Qed.

Lemma map_visual_property_unknown_column cy visual_prop table_column mapping_type
    cols props network :
  known_property cy visual_prop →
  declared_type cy visual_prop table_column network = None →
  map_visual_property visual_prop table_column mapping_type cols props network cy
  = (Raise (CyError (unknown_column_msg table_column
                       (table_of (normalize_property visual_prop)))),
     after_reads cy visual_prop network).
Proof.
  intros Hknown Hnone. apply contains_elem_of in Hknown.
  unfold declared_type, backing_table in Hnone.
  unfold map_visual_property, bind, get_network_suid, get_visual_property_names,
    cyrest_get_columns.
  simpl. rewrite Hknown. simpl. rewrite Hnone. unfold raise.
  by calls_norm.
Qed.

Lemma map_visual_property_validated cy visual_prop table_column mapping_type
    cols props network ty :
  known_property cy visual_prop →
  declared_type cy visual_prop table_column network = Some ty →
  map_visual_property visual_prop table_column mapping_type cols props network cy
  = (let doc := header visual_prop table_column mapping_type ty in
     let kind := Py.dict_get_default MAPPING_TYPES mapping_type in
     if String.eqb kind "discrete" then
       let! map := discrete_map cols props in ret (doc (Some map) None)
     else if String.eqb kind "continuous" then
       let! points := continuous_points cols props in ret (doc None (Some points))
     else ret (doc None None)) (after_reads cy visual_prop network).
Proof.
  intros Hknown Hsome. apply contains_elem_of in Hknown.
  unfold declared_type, backing_table in Hsome.
  unfold map_visual_property, bind at 1 2 3, get_network_suid, get_visual_property_names,
    cyrest_get_columns.
  simpl. rewrite Hknown. simpl. rewrite Hsome.
  unfold after_reads, builder_reads, header.
  by calls_norm.
Qed.


Lemma kind_continuous (mapping_type : string) :
  mapping_type = "c" ∨ mapping_type = "continuous" →
  Py.dict_get_default MAPPING_TYPES mapping_type = "continuous".
Proof. by intros [-> | ->]. Qed.

Lemma kind_discrete (mapping_type : string) :
  mapping_type = "d" ∨ mapping_type = "discrete" →
  Py.dict_get_default MAPPING_TYPES mapping_type = "discrete".
Proof. by intros [-> | ->]. Qed.

Lemma kind_verbatim (mapping_type : string) :
  mapping_type ∉ ["c"; "d"; "p"] →
  Py.dict_get_default MAPPING_TYPES mapping_type = mapping_type.
Proof.
  intros Hnot. unfold Py.dict_get_default, MAPPING_TYPES. simpl.
  repeat match goal with
    | |- context [String.eqb mapping_type ?s] =>
        destruct (String.eqb_spec mapping_type s) as [-> | _];
        [exfalso; apply Hnot; in_list |]
    end.
  done.
Qed.

Lemma known_property_dec cy visual_prop :
  known_property cy visual_prop ∨ ¬ known_property cy visual_prop.
Proof.
  unfold known_property.
  destruct (Py.contains (visual_property_names cy) (normalize_property visual_prop)) eqn:E.
  - left. by apply contains_elem_of.
  - right. by apply contains_false.
Qed.

(** C1: a continuous build with as many property values as column values
    returns a document whose points are one waypoint per column value, in
    the order of the input, and the lesser, equal and greater of each
    waypoint are the property value paired with its column value. *)
Theorem continuous_equal_lengths cy visual_prop table_column mapping_type
    (table_column_values : list K) (visual_prop_values : list V) network ty :
  mapping_type = "c" ∨ mapping_type = "continuous" →
  known_property cy visual_prop →
  declared_type cy visual_prop table_column network = Some ty →
  length visual_prop_values = length table_column_values →
  ∃ points,
    fst (map_visual_property visual_prop table_column mapping_type
           (Some table_column_values) (Some visual_prop_values) network cy)
    = Return {| mappingType := "continuous";
                mappingColumn := table_column;
                mappingColumnType := ty;
                visualProperty := normalize_property visual_prop;
                cargo_map := None;
                cargo_points := Some points |}
    ∧ length points = length table_column_values
    ∧ ∀ i col_val, table_column_values !! i = Some col_val →
        ∃ prop_val, visual_prop_values !! i = Some prop_val
          ∧ points !! i = Some {| p_value := col_val; p_lesser := prop_val;
                                  p_equal := prop_val; p_greater := prop_val |}.
Proof.
  intros Hkind Hknown Hty Hlen.
  exists (zip_with waypoint table_column_values visual_prop_values).
  rewrite (map_visual_property_validated _ _ _ _ _ _ _ ty Hknown Hty).
  unfold header. rewrite (kind_continuous _ Hkind). simpl.
  unfold continuous_points, bind, Py.len. rewrite Hlen, Z.sub_diag. simpl.
  split; [done |]. split.
  - by apply length_zip_with_l_eq.
  - intros i col_val Hcol.
    destruct (lookup_lt_is_Some_2 visual_prop_values i) as [prop_val Hprop].
    { rewrite Hlen. by eapply lookup_lt_Some. }
    exists prop_val. split; [done |].
    apply lookup_zip_with_Some. by exists col_val, prop_val.
Qed.

Lemma setitem_slot_nonneg (set : Point K V → V → Point K V)
    (points : list (Point K V)) (i : nat) (v : V) :
  (i < length points)%nat →
  ∃ pt, points !! i = Some pt
    ∧ setitem_slot set points (Z.of_nat i) v = Return (<[i := set pt v]> points).
Proof.
  intros Hi. destruct (lookup_lt_is_Some_2 points i Hi) as [pt Hpt].
  exists pt. split; [done |].
  unfold setitem_slot. by rewrite index_nonneg, Hpt.
Qed.

(** Without column values the branch with two extra property values fails
    at [points[0]]. *)
Lemma points_with_extremes_empty (visual_prop_values : list V) :
  length visual_prop_values = 2%nat →
  points_with_extremes (@nil K) visual_prop_values = Raise IndexError.
Proof.
  intros Hlen. destruct visual_prop_values as [| first_val [| last_val [|]]]; try done.
Qed.

(** The points of the branch with two extra property values. *)
Lemma points_with_extremes_spec (table_column_values : list K)
    (visual_prop_values : list V) :
  table_column_values ≠ [] →
  length visual_prop_values = (length table_column_values + 2)%nat →
  ∃ points first_val last_val,
    points_with_extremes table_column_values visual_prop_values = Return points
    ∧ length points = length table_column_values
    ∧ visual_prop_values !! 0%nat = Some first_val
    ∧ last visual_prop_values = Some last_val
    ∧ ∀ i col_val, table_column_values !! i = Some col_val →
        ∃ prop_val, visual_prop_values !! S i = Some prop_val
          ∧ points !! i
            = Some {| p_value := col_val;
                      p_lesser := if decide (i = 0%nat) then first_val else prop_val;
                      p_equal := prop_val;
                      p_greater := if decide (i = (length table_column_values - 1)%nat)
                                   then last_val else prop_val |}.
Proof.
  intros Hne Hlen.
  assert (Hn : (0 < length table_column_values)%nat).
  { destruct table_column_values; [done | simpl; lia]. }
  destruct visual_prop_values as [| first_val rest]; [simpl in Hlen; lia |].
  simpl in Hlen.
  destruct (last (first_val :: rest)) as [last_val |] eqn:Hlast.
  2: { apply last_None in Hlast. done. }
  set (points0 := zip_with waypoint table_column_values rest).
  assert (Hlen0 : length points0 = length table_column_values).
  { unfold points0. rewrite length_zip_with. lia. }
  assert (Hlook0 : ∀ i col_val, table_column_values !! i = Some col_val →
            ∃ prop_val, rest !! i = Some prop_val
              ∧ points0 !! i = Some (waypoint col_val prop_val)).
  { intros i col_val Hcol.
    destruct (lookup_lt_is_Some_2 rest i) as [prop_val Hprop].
    { apply lookup_lt_Some in Hcol. lia. }
    exists prop_val. split; [done |].
    apply lookup_zip_with_Some. by exists col_val, prop_val. }
  destruct (setitem_slot_nonneg set_lesser points0 0 first_val) as (pt0 & Hpt0 & Hset0);
    [lia |].
  set (points1 := <[0%nat := set_lesser pt0 first_val]> points0) in *.
  assert (Hlen1 : length points1 = length table_column_values).
  { unfold points1. by rewrite length_insert. }
  destruct (setitem_slot_nonneg set_greater points1
              (length table_column_values - 1) last_val) as (pt1 & Hpt1 & Hset1);
    [lia |].
  exists (<[(length table_column_values - 1)%nat := set_greater pt1 last_val]> points1),
    first_val, last_val.
  split.
  { unfold points_with_extremes.
    change (drop 1 (first_val :: rest)) with rest. fold points0.
    change (Py.getitem (first_val :: rest) 0) with (Some first_val).
    cbv beta iota.
    change (Z.of_nat 0) with 0%Z in Hset0.
    rewrite Hset0. rewrite getitem_minus_one by done. rewrite Hlast.
    unfold Py.len.
    replace (Z.of_nat (length table_column_values) - 1)%Z
      with (Z.of_nat (length table_column_values - 1)) by lia.
    exact Hset1. }
  split; [by rewrite length_insert |].
  split; [done |]. split; [done |].
  intros i col_val Hcol.
  destruct (Hlook0 i col_val Hcol) as (prop_val & Hprop & Hpoint).
  exists prop_val. split; [done |].
  assert (Hi : (i < length table_column_values)%nat) by (by eapply lookup_lt_Some).
  assert (Hpoint1 : points1 !! i
            = Some {| p_value := col_val;
                      p_lesser := if decide (i = 0%nat) then first_val else prop_val;
                      p_equal := prop_val; p_greater := prop_val |}).
  { unfold points1. destruct (decide (i = 0%nat)) as [-> | Hi0].
    - rewrite list_lookup_insert_eq by lia. rewrite Hpoint in Hpt0.
      by injection Hpt0 as <-.
    - by rewrite list_lookup_insert_ne. }
  destruct (decide (i = (length table_column_values - 1)%nat)) as [Heq | Hneq].
  - rewrite <- Heq in *. rewrite list_lookup_insert_eq by lia.
    rewrite Hpoint1 in Hpt1. by injection Hpt1 as <-.
  - by rewrite list_lookup_insert_ne.
Qed.

(** X22: a continuous build with at least one column value and exactly
    two more property values than column values returns
    a document with one waypoint per column value; the i-th waypoint is
    built from the i-th column value and the property value after the
    first that is paired with it, except that the lesser of the first
    waypoint is the first property value and the greater of the last
    waypoint is the last property value. *)
Theorem continuous_two_extra cy visual_prop table_column mapping_type
    (table_column_values : list K) (visual_prop_values : list V) network ty :
  mapping_type = "c" ∨ mapping_type = "continuous" →
  known_property cy visual_prop →
  declared_type cy visual_prop table_column network = Some ty →
  table_column_values ≠ [] →
  length visual_prop_values = (length table_column_values + 2)%nat →
  ∃ points first_val last_val,
    fst (map_visual_property visual_prop table_column mapping_type
           (Some table_column_values) (Some visual_prop_values) network cy)
    = Return {| mappingType := "continuous";
                mappingColumn := table_column;
                mappingColumnType := ty;
                visualProperty := normalize_property visual_prop;
                cargo_map := None;
                cargo_points := Some points |}
    ∧ length points = length table_column_values
    ∧ visual_prop_values !! 0%nat = Some first_val
    ∧ last visual_prop_values = Some last_val
    ∧ ∀ i col_val, table_column_values !! i = Some col_val →
        ∃ prop_val, visual_prop_values !! S i = Some prop_val
          ∧ points !! i
            = Some {| p_value := col_val;
                      p_lesser := if decide (i = 0%nat) then first_val else prop_val;
                      p_equal := prop_val;
                      p_greater := if decide (i = (length table_column_values - 1)%nat)
                                   then last_val else prop_val |}.
Proof.
  intros Hkind Hknown Hty Hne Hlen.
  destruct (points_with_extremes_spec _ _ Hne Hlen)
    as (points & first_val & last_val & Hpoints & Hrest).
  exists points, first_val, last_val. split; [| exact Hrest].
  rewrite (map_visual_property_validated _ _ _ _ _ _ _ ty Hknown Hty).
  unfold header. rewrite (kind_continuous _ Hkind). simpl.
  unfold continuous_points, bind, Py.len. rewrite Hlen.
  replace (Z.of_nat (length table_column_values + 2)
           - Z.of_nat (length table_column_values))%Z with 2%Z by lia.
  simpl. by rewrite Hpoints.
Qed.

(** C3: a continuous build in which the number of property values minus the
    number of column values is neither 0 nor 2 raises a [CyError] and
    returns no document; when the property and the column are valid, the
    error is the one of mismatched lengths. *)
Theorem continuous_mismatched_lengths cy visual_prop table_column mapping_type
    (table_column_values : list K) (visual_prop_values : list V) network :
  mapping_type = "c" ∨ mapping_type = "continuous" →
  (Py.len visual_prop_values - Py.len table_column_values)%Z ≠ 0%Z →
  (Py.len visual_prop_values - Py.len table_column_values)%Z ≠ 2%Z →
  ∃ msg,
    fst (map_visual_property visual_prop table_column mapping_type
           (Some table_column_values) (Some visual_prop_values) network cy)
    = Raise (CyError msg)
    ∧ (known_property cy visual_prop →
       is_Some (declared_type cy visual_prop table_column network) →
       msg = mismatch_msg).
Proof.
  intros Hkind H0 H2.
  destruct (known_property_dec cy visual_prop) as [Hknown | Hunknown].
  - destruct (declared_type cy visual_prop table_column network) as [ty |] eqn:Hty.
    + exists mismatch_msg. split; [| done].
      rewrite (map_visual_property_validated _ _ _ _ _ _ _ ty Hknown Hty).
      unfold header. rewrite (kind_continuous _ Hkind). simpl.
      unfold continuous_points, bind.
      apply Z.eqb_neq in H0, H2. by rewrite H0, H2.
    + eexists. split.
      * by rewrite map_visual_property_unknown_column.
      * by intros _ [? ?].
  - eexists. split.
    + by rewrite map_visual_property_unknown_property.
    + done.
Qed.

(** C4: a discrete build returns, without error, a document whose map pairs
    the i-th column value with the i-th property value for every i below
    the length of the shorter list, in the order of the input; with lists
    of the same length there is one entry per pair, and otherwise the pairs
    beyond the shorter list are left out. *)
Theorem discrete_pairs cy visual_prop table_column mapping_type
    (table_column_values : list K) (visual_prop_values : list V) network ty :
  mapping_type = "d" ∨ mapping_type = "discrete" →
  known_property cy visual_prop →
  declared_type cy visual_prop table_column network = Some ty →
  ∃ map,
    fst (map_visual_property visual_prop table_column mapping_type
           (Some table_column_values) (Some visual_prop_values) network cy)
    = Return {| mappingType := "discrete";
                mappingColumn := table_column;
                mappingColumnType := ty;
                visualProperty := normalize_property visual_prop;
                cargo_map := Some map;
                cargo_points := None |}
    ∧ length map = min (length table_column_values) (length visual_prop_values)
    ∧ (length table_column_values = length visual_prop_values →
       length map = length table_column_values)
    ∧ (∀ i, (i < min (length table_column_values) (length visual_prop_values))%nat →
         ∃ col_val prop_val,
           table_column_values !! i = Some col_val
           ∧ visual_prop_values !! i = Some prop_val
           ∧ map !! i = Some {| e_key := col_val; e_value := prop_val |})
    ∧ (∀ i, (min (length table_column_values) (length visual_prop_values) ≤ i)%nat →
         map !! i = None).
Proof.
  intros Hkind Hknown Hty.
  exists (zip_with entry table_column_values visual_prop_values).
  rewrite (map_visual_property_validated _ _ _ _ _ _ _ ty Hknown Hty).
  unfold header. rewrite (kind_discrete _ Hkind). simpl.
  split; [done |]. split; [apply length_zip_with |].
  split; [intros Hlen; rewrite length_zip_with; lia |]. split.
  - intros i Hi.
    destruct (lookup_lt_is_Some_2 table_column_values i) as [col_val Hcol]; [lia |].
    destruct (lookup_lt_is_Some_2 visual_prop_values i) as [prop_val Hprop]; [lia |].
    exists col_val, prop_val. split; [done |]. split; [done |].
    apply lookup_zip_with_Some. by exists col_val, prop_val.
  - intros i Hi. apply lookup_ge_None. by rewrite length_zip_with.
Qed.

(** C10: a mapping type that is none of [c], [d], [p], [continuous],
    [discrete], [passthrough] is not rejected: with a valid property and
    column the builder returns a document whose [mappingType] is that very
    text and which has neither map nor points; and whatever error the
    builder raises for such a mapping type is one of the two errors of the
    validation of property and column. *)
Theorem unrecognized_kind_verbatim cy visual_prop table_column mapping_type
    cols props network :
  mapping_type ∉ ["c"; "d"; "p"; "continuous"; "discrete"; "passthrough"] →
  (∀ ty, known_property cy visual_prop →
     declared_type cy visual_prop table_column network = Some ty →
     fst (map_visual_property visual_prop table_column mapping_type cols props network cy)
     = Return {| mappingType := mapping_type;
                 mappingColumn := table_column;
                 mappingColumnType := ty;
                 visualProperty := normalize_property visual_prop;
                 cargo_map := None;
                 cargo_points := None |})
  ∧ (∀ e,
     fst (map_visual_property visual_prop table_column mapping_type cols props network cy)
     = Raise e → validation_error visual_prop table_column e).
Proof.
  intros Hnot.
  assert (Hkind : Py.dict_get_default MAPPING_TYPES mapping_type = mapping_type).
  { apply kind_verbatim. intros Hin. apply Hnot.
    rewrite !elem_of_cons, elem_of_nil in Hin.
    destruct Hin as [-> | [-> | [-> | []]]]; in_list. }
  assert (Hd : String.eqb mapping_type "discrete" = false).
  { apply String.eqb_neq. intros ->. apply Hnot. in_list. }
  assert (Hc : String.eqb mapping_type "continuous" = false).
  { apply String.eqb_neq. intros ->. apply Hnot. in_list. }
  assert (Hvalid : ∀ ty, known_property cy visual_prop →
     declared_type cy visual_prop table_column network = Some ty →
     fst (map_visual_property visual_prop table_column mapping_type cols props network cy)
     = Return {| mappingType := mapping_type;
                 mappingColumn := table_column;
                 mappingColumnType := ty;
                 visualProperty := normalize_property visual_prop;
                 cargo_map := None;
                 cargo_points := None |}).
  { intros ty Hknown Hty.
    rewrite (map_visual_property_validated _ _ _ _ _ _ _ ty Hknown Hty).
    unfold header. simpl. by rewrite Hkind, Hd, Hc. }
  split; [exact Hvalid |].
  intros e He.
  destruct (known_property_dec cy visual_prop) as [Hknown | Hunknown].
  - destruct (declared_type cy visual_prop table_column network) as [ty |] eqn:Hty.
    + rewrite (Hvalid ty Hknown eq_refl) in He. discriminate.
    + rewrite map_visual_property_unknown_column in He by done.
      injection He as <-. by right.
  - rewrite map_visual_property_unknown_property in He by done.
    injection He as <-. by left.
Qed.


Lemma setitem_slot_raises (set : Point K V → V → Point K V) points i v e :
  setitem_slot set points i v = Raise e → e = IndexError.
Proof.
  unfold setitem_slot. destruct (Py.index points i) as [j |]; [| congruence].
  destruct (points !! j); congruence.
Qed.

Lemma points_with_extremes_raises (table_column_values : list K)
    (visual_prop_values : list V) e :
  points_with_extremes table_column_values visual_prop_values = Raise e →
  e = IndexError.
Proof.
  unfold points_with_extremes.
  destruct (Py.getitem visual_prop_values 0); [| congruence].
  destruct (setitem_slot set_lesser _ 0 v) as [points |] eqn:E1.
  - destruct (Py.getitem visual_prop_values (-1)); [| congruence].
    apply setitem_slot_raises.
  - intros [= <-]. by apply setitem_slot_raises in E1.
Qed.

Lemma continuous_points_raises cols props cy e :
  fst (continuous_points cols props cy) = Raise e → cargo_error e.
Proof.
  unfold continuous_points, cargo_error.
  destruct props as [visual_prop_values |]; [| intros [= <-]; auto].
  destruct cols as [table_column_values |]; [| intros [= <-]; auto].
  destruct (_ =? 2)%Z.
  - destruct (points_with_extremes _ _) eqn:E; [done |].
    apply points_with_extremes_raises in E. intros [= <-]. auto.
  - destruct (_ =? 0)%Z; [done |]. intros [= <-]. auto.
Qed.

Lemma discrete_map_raises cols props cy e :
  fst (discrete_map cols props cy) = Raise e → cargo_error e.
Proof.
  unfold discrete_map, cargo_error.
  destruct cols; [| intros [= <-]; auto].
  destruct props; [done | intros [= <-]; auto].
Qed.

Lemma cargo_error_not_validation visual_prop table_column e :
  cargo_error e → ¬ validation_error visual_prop table_column e.
Proof.
  unfold cargo_error, validation_error, mismatch_msg, unknown_property_msg,
    unknown_column_msg.
  intros [-> | [-> | ->]] [H | H]; discriminate H.
Qed.

(** With a valid property and column the builder returns a document that
    carries the declared type of the column, or fails in the cargo step of
    a discrete or continuous mapping. *)
Lemma map_visual_property_validated_outcome cy visual_prop table_column mapping_type
    cols props network ty :
  known_property cy visual_prop →
  declared_type cy visual_prop table_column network = Some ty →
  (∃ cargo_map cargo_points,
     fst (map_visual_property visual_prop table_column mapping_type cols props network cy)
     = Return (header visual_prop table_column mapping_type ty cargo_map cargo_points))
  ∨ (∃ e,
     fst (map_visual_property visual_prop table_column mapping_type cols props network cy)
     = Raise e
     ∧ cargo_error e
     ∧ (Py.dict_get_default MAPPING_TYPES mapping_type = "discrete"
        ∨ Py.dict_get_default MAPPING_TYPES mapping_type = "continuous")).
Proof.
  intros Hknown Hty.
  rewrite (map_visual_property_validated _ _ _ _ _ _ _ ty Hknown Hty). simpl.
  destruct (String.eqb_spec (Py.dict_get_default MAPPING_TYPES mapping_type) "discrete")
    as [Hd | Hd].
  - unfold bind.
    destruct (discrete_map cols props (after_reads cy visual_prop network))
      as [[map | e] cy'] eqn:E.
    + left. by eexists _, _.
    + right. exists e. split; [done |]. split; [| by left].
      eapply discrete_map_raises. by rewrite E.
  - destruct (String.eqb_spec (Py.dict_get_default MAPPING_TYPES mapping_type) "continuous")
      as [Hc | Hc].
    + unfold bind.
      destruct (continuous_points cols props (after_reads cy visual_prop network))
        as [[points | e] cy'] eqn:E.
      * left. by eexists _, _.
      * right. exists e. split; [done |]. split; [| by right].
        eapply continuous_points_raises. by rewrite E.
    + left. by eexists _, _.
Qed.

(** C5: for a property name of ASCII characters, the builder first
    normalizes the name as the specification words it: whitespace collapsed
    to underscores, upper case, then the alias table ([EDGE_COLOR] to
    [EDGE_UNSELECTED_PAINT], [EDGE_THICKNESS] to [EDGE_WIDTH],
    [NODE_BORDER_COLOR] to [NODE_BORDER_PAINT], [NODE_BORDER_LINE_TYPE] to
    [NODE_BORDER_STROKE]).  The table it reads is the node, edge or network
    table of the network, by the prefix of the normalized name.  It raises
    an error of the validation exactly when the normalized name is not
    among the visual property names or no column of that table has the
    name of the column.  When both are present, no error of the validation
    is raised: the builder returns a document whose [mappingColumnType] is
    the declared type of the first column of that name in the table,
    unless the cargo step of a discrete or continuous mapping fails with
    an error of its own. *)
Theorem validation_exact cy visual_prop table_column mapping_type cols props network :
  Text.isascii visual_prop = true →
  let result :=
    fst (map_visual_property visual_prop table_column mapping_type cols props network cy) in
  let name := normalize_property visual_prop in
  let columns := backing_table cy visual_prop network in
  name = Spec.alias (Spec.uppercase (Spec.collapse visual_prop))
  ∧ normalize_property "edge   color" = "EDGE_UNSELECTED_PAINT"
  ∧ (∀ rest, name = "NODE_" ++ rest →
       columns = table_columns cy (network_suid cy network) "defaultnode")
  ∧ (∀ rest, name = "EDGE_" ++ rest →
       columns = table_columns cy (network_suid cy network) "defaultedge")
  ∧ (∀ rest, name = "NETWORK_" ++ rest →
       columns = table_columns cy (network_suid cy network) "defaultnetwork")
  ∧ ((∃ e, result = Raise e ∧ validation_error visual_prop table_column e)
     ↔ (name ∉ visual_property_names cy ∨ table_column ∉ (col_name <$> columns)))
  ∧ (name ∈ visual_property_names cy →
     table_column ∈ (col_name <$> columns) →
     ∃ before col after,
       columns = (before ++ col :: after)%list
       ∧ col_name col = table_column
       ∧ (table_column ∉ (col_name <$> before))
       ∧ ((∃ cargo_map cargo_points,
             result = Return {| mappingType := Py.dict_get_default MAPPING_TYPES mapping_type;
                                mappingColumn := table_column;
                                mappingColumnType := col_type col;
                                visualProperty := name;
                                cargo_map := cargo_map;
                                cargo_points := cargo_points |})
          ∨ (∃ e, result = Raise e ∧ cargo_error e
               ∧ (Py.dict_get_default MAPPING_TYPES mapping_type = "discrete"
                  ∨ Py.dict_get_default MAPPING_TYPES mapping_type = "continuous")))).
Proof.
  intros _ result name columns.
  split; [apply normalize_property_worded |]. split; [done |].
  split; [intros rest Hname; unfold columns, backing_table; fold name; by rewrite Hname |].
  split; [intros rest Hname; unfold columns, backing_table; fold name; by rewrite Hname |].
  split; [intros rest Hname; unfold columns, backing_table; fold name; by rewrite Hname |].
  assert (Hboth : known_property cy visual_prop →
     table_column ∈ (col_name <$> columns) →
     ∃ ty, declared_type cy visual_prop table_column network = Some ty
       ∧ ((∃ cargo_map cargo_points,
             result = Return (header visual_prop table_column mapping_type ty
                                cargo_map cargo_points))
          ∨ (∃ e, result = Raise e ∧ cargo_error e
               ∧ (Py.dict_get_default MAPPING_TYPES mapping_type = "discrete"
                  ∨ Py.dict_get_default MAPPING_TYPES mapping_type = "continuous")))).
  { intros Hknown Hcol. apply column_type_is_Some in Hcol. destruct Hcol as [ty Hty].
    exists ty. split; [done |].
    by apply map_visual_property_validated_outcome. }
  split.
  - split.
    + intros (e & He & Hval).
      destruct (known_property_dec cy visual_prop) as [Hknown | Hunknown]; [| by left].
      right. intros Hcol.
      destruct (Hboth Hknown Hcol)
        as (ty & _ & [(m & pts & Hret) | (e' & Hraise & Hcargo & _)]).
      * congruence.
      * rewrite He in Hraise. injection Hraise as <-.
        by eapply cargo_error_not_validation.
    + intros Habsent.
      destruct (known_property_dec cy visual_prop) as [Hknown | Hunknown].
      * destruct Habsent as [Hname | Hcol]; [done |].
        apply column_type_None in Hcol.
        eexists. split.
        -- subst result. by rewrite map_visual_property_unknown_column.
        -- by right.
      * eexists. split.
        -- subst result. by rewrite map_visual_property_unknown_property.
        -- by left.
  - intros Hknown Hcol.
    destruct (Hboth Hknown Hcol) as (ty & Hty & Hresult).
    destruct (column_type_split _ _ _ Hty) as (before & col & after & Hsplit & Hname & Hnot & <-).
    by exists before, col, after.
Qed.

(** A document returned by the builder has the header of its arguments,
    and the builder has then made its three reads and no other call. *)
Lemma map_visual_property_returns cy visual_prop table_column mapping_type
    cols props network doc cy' :
  map_visual_property visual_prop table_column mapping_type cols props network cy
  = (Return doc, cy') →
  (∃ ty cargo_map cargo_points,
     doc = header visual_prop table_column mapping_type ty cargo_map cargo_points)
  ∧ cy' = after_reads cy visual_prop network.
Proof.
  destruct (known_property_dec cy visual_prop) as [Hknown | Hunknown].
  2: { by rewrite map_visual_property_unknown_property. }
  destruct (declared_type cy visual_prop table_column network) as [ty |] eqn:Hty.
  2: { by rewrite map_visual_property_unknown_column. }
  rewrite (map_visual_property_validated _ _ _ _ _ _ _ ty Hknown Hty). simpl.
  destruct (String.eqb _ "discrete").
  - unfold bind, discrete_map, raise, ret.
    destruct cols; [| done]. destruct props; [| done].
    intros [= <- <-]. split; [by eexists _, _, _ | done].
  - destruct (String.eqb _ "continuous").
    + unfold bind, continuous_points, raise, ret, stderr_write.
      destruct props as [visual_prop_values |]; [| done].
      destruct cols as [table_column_values |]; [| done].
      destruct (_ =? 2)%Z.
      * destruct (points_with_extremes _ _); [| done].
        intros [= <- <-]. split; [by eexists _, _, _ | done].
      * destruct (_ =? 0)%Z; [| done].
        intros [= <- <-]. split; [by eexists _, _, _ | done].
    + unfold ret. intros [= <- <-]. split; [by eexists _, _, _ | done].
Qed.

Lemma known_property_schema cy cy' visual_prop :
  same_schema cy cy' → known_property cy' visual_prop ↔ known_property cy visual_prop.
Proof. intros (_ & Hnames & _). unfold known_property. by rewrite Hnames. Qed.

Lemma declared_type_schema cy cy' visual_prop table_column network :
  same_schema cy cy' →
  declared_type cy' visual_prop table_column network
  = declared_type cy visual_prop table_column network.
Proof.
  intros (Hsuid & _ & Htables). unfold declared_type, backing_table.
  by rewrite Hsuid, Htables.
Qed.

(** What the builder returns or raises depends on the schema only, not on
    the calls made before nor on the styles. *)
Lemma map_visual_property_schema cy cy' visual_prop table_column mapping_type
    cols props network :
  same_schema cy cy' →
  fst (map_visual_property visual_prop table_column mapping_type cols props network cy')
  = fst (map_visual_property visual_prop table_column mapping_type cols props network cy).
Proof.
  intros Hschema.
  destruct (known_property_dec cy visual_prop) as [Hknown | Hunknown].
  - assert (Hknown' : known_property cy' visual_prop)
      by (by apply (known_property_schema cy cy')).
    destruct (declared_type cy visual_prop table_column network) as [ty |] eqn:Hty.
    + assert (Hty' : declared_type cy' visual_prop table_column network = Some ty)
        by (by rewrite (declared_type_schema cy cy')).
      rewrite (map_visual_property_validated cy' _ _ _ _ _ _ ty Hknown' Hty').
      rewrite (map_visual_property_validated cy _ _ _ _ _ _ ty Hknown Hty).
      simpl. destruct (String.eqb _ "discrete").
      * unfold bind, discrete_map, raise, ret.
        destruct cols; [| done]. by destruct props.
      * destruct (String.eqb _ "continuous"); [| done].
        unfold bind, continuous_points, raise, ret, stderr_write.
        destruct props as [visual_prop_values |]; [| done].
        destruct cols as [table_column_values |]; [| done].
        destruct (_ =? 2)%Z.
        -- by destruct (points_with_extremes _ _).
        -- by destruct (_ =? 0)%Z.
    + assert (Hty' : declared_type cy' visual_prop table_column network = None)
        by (by rewrite (declared_type_schema cy cy')).
      by rewrite !map_visual_property_unknown_column.
  - assert (Hunknown' : ¬ known_property cy' visual_prop).
    { intros H. apply Hunknown. by apply (known_property_schema cy cy'). }
    by rewrite !map_visual_property_unknown_property.
Qed.

End Builder.

(** ** The applier *)

Section Applier.
Context {K V : Type}.
Implicit Types (cy : Cytoscape K V) (mapping : Mapping K V).

(** What applying a document does to the state. *)
Lemma update_style_mapping_spec cy style_name mapping :
  ∃ write cy',
    update_style_mapping style_name mapping cy = (Return EmptyString, cy')
    ∧ calls cy' = (calls cy ++ [CyrestGet (mappings_url style_name); write])%list
    ∧ is_write write = true
    ∧ same_schema cy cy'
    ∧ applied cy' style_name mapping
    ∧ ∀ m, applied cy style_name m → visualProperty m ≠ visualProperty mapping →
        applied cy' style_name m.
Proof.
  unfold update_style_mapping, bind, cyrest_get_mappings, applied, same_schema. simpl.
  destruct (Py.contains _ _).
  - eexists _, _. split; [reflexivity |]. simpl. rewrite String.eqb_refl.
    split; [by calls_norm |]. split; [done |]. split; [done |].
    split; [apply elem_of_app; right; apply elem_of_cons; by left |].
    intros m Hm Hne. apply elem_of_app. left.
    apply list_elem_of_filter. split; [| done].
    unfold has_property. by apply String.eqb_neq.
  - eexists _, _. split; [reflexivity |]. simpl. rewrite String.eqb_refl.
    split; [by calls_norm |]. split; [done |]. split; [done |].
    split; [apply elem_of_app; right; apply elem_of_cons; by left |].
    intros m Hm Hne. apply elem_of_app. by left.
Qed.

(** C6: applying a document to a style reads the mappings of the style and
    then issues one write and no other.  When the property of the document
    is among the mapped properties of the style, the write is a PUT of the
    document to [styles/<style>/mappings/<property>], the endpoint of the
    mapping of that property, and it replaces the mapping in place: the
    document is then the only one of its property in the style, and the
    documents of the other properties are as before.  Otherwise the write
    is a POST of the document to [styles/<style>/mappings], the collection
    of the mappings of the style, and it adds the document to the
    mappings of the style. *)
Theorem update_puts_or_posts cy style_name mapping :
  ∃ write cy',
    update_style_mapping style_name mapping cy = (Return EmptyString, cy')
    ∧ calls cy'
      = (calls cy ++ [CyrestGet ("styles/" ++ style_name ++ "/mappings"); write])%list
    ∧ List.filter is_write [CyrestGet ("styles/" ++ style_name ++ "/mappings"); write]
      = [write]
    ∧ (visualProperty mapping ∈ (visualProperty <$> style_mappings cy style_name) →
       write = CyrestPut ("styles/" ++ style_name ++ "/mappings/" ++ visualProperty mapping)
                 [mapping]
       ∧ applied cy' style_name mapping
       ∧ (∀ m, applied cy' style_name m →
            visualProperty m = visualProperty mapping → m = mapping)
       ∧ (∀ m, visualProperty m ≠ visualProperty mapping →
            applied cy' style_name m ↔ applied cy style_name m))
    ∧ (visualProperty mapping ∉ (visualProperty <$> style_mappings cy style_name) →
       write = CyrestPost ("styles/" ++ style_name ++ "/mappings") [mapping]
       ∧ style_mappings cy' style_name = (style_mappings cy style_name ++ [mapping])%list).
Proof.
  unfold update_style_mapping, bind, cyrest_get_mappings, applied. simpl.
  destruct (Py.contains (visualProperty <$> style_mappings cy style_name)
              (visualProperty mapping)) eqn:E.
  - apply contains_elem_of in E.
    eexists _, _. split; [reflexivity |]. split; [by calls_norm |].
    split; [done |]. split; [| by intros Hnot].
    intros _. simpl. rewrite String.eqb_refl.
    split; [done |].
    split; [apply elem_of_app; right; apply elem_of_cons; by left |].
    split.
    + intros m Hm Hsame. apply elem_of_app in Hm as [Hm | Hm].
      * apply list_elem_of_filter in Hm as [Hm _]. unfold has_property in Hm.
        apply String.eqb_neq in Hm. done.
      * by apply list_elem_of_singleton in Hm.
    + intros m Hne. rewrite elem_of_app, list_elem_of_filter, list_elem_of_singleton.
      unfold has_property. rewrite String.eqb_neq. split.
      * intros [[_ Hm] | ->]; done.
      * intros Hm. by left.
  - apply contains_false in E.
    eexists _, _. split; [reflexivity |]. split; [by calls_norm |].
    split; [done |]. split; [by intros Hin |].
    intros _. simpl. by rewrite String.eqb_refl.
Qed.

(** C7: deleting the mapping of a property that the style does not map
    returns [None] without raising and issues no write, in particular no
    DELETE; the style is unchanged, so deleting again returns [None] again. *)
Theorem delete_absent cy style_name visual_prop :
  visual_prop ∉ (visualProperty <$> style_mappings cy style_name) →
  ∃ cy1 cy2,
    delete_style_mapping style_name visual_prop cy = (Return None, cy1)
    ∧ calls cy1 = (calls cy ++ [CyrestGet (mappings_url style_name)])%list
    ∧ style_mappings cy1 = style_mappings cy
    ∧ delete_style_mapping style_name visual_prop cy1 = (Return None, cy2)
    ∧ calls cy2 = (calls cy ++ [CyrestGet (mappings_url style_name);
                                CyrestGet (mappings_url style_name)])%list
    ∧ style_mappings cy2 = style_mappings cy
    ∧ List.filter is_write [CyrestGet (mappings_url style_name);
                            CyrestGet (mappings_url style_name)]
      = @nil (call K V).
Proof.
  intros Habsent. apply contains_false in Habsent.
  unfold delete_style_mapping, bind, cyrest_get_mappings. simpl.
  rewrite Habsent.
  eexists _, _. split; [reflexivity |]. split; [done |]. split; [done |].
  simpl. rewrite Habsent.
  split; [reflexivity |]. split; [by calls_norm |]. done.
Qed.

End Applier.

(** ** The opacity functions *)

Section Opacity.
Context {K : Type}.
Implicit Types (cy : Cytoscape K string) (opacities : option (list Z)).

Lemma out_of_range_spec (o : Z) : out_of_range o = true ↔ ¬ in_range o.
Proof. unfold out_of_range, in_range. rewrite orb_true_iff. lia. Qed.

Lemma out_of_range_false (o : Z) : out_of_range o = false ↔ in_range o.
Proof. unfold out_of_range, in_range. rewrite orb_false_iff. lia. Qed.

Lemma some_out_of_range (l : list Z) :
  existsb out_of_range l = true ↔ ∃ o, o ∈ l ∧ ¬ in_range o.
Proof.
  rewrite existsb_exists. split.
  - intros (o & Hin & Hout). exists o.
    split; [by apply list_elem_of_In | by apply out_of_range_spec].
  - intros (o & Hin & Hout). exists o.
    split; [by apply list_elem_of_In | by apply out_of_range_spec].
Qed.

Lemma none_out_of_range (l : list Z) :
  existsb out_of_range l = false ↔ Forall in_range l.
Proof.
  rewrite Forall_forall. split.
  - intros Hnone o Hin. apply out_of_range_false.
    destruct (out_of_range o) eqn:E; [| done].
    rewrite <- Hnone. symmetry. apply existsb_exists. exists o.
    split; [by apply list_elem_of_In | done].
  - intros Hall. destruct (existsb out_of_range l) eqn:E; [| done].
    apply some_out_of_range in E. destruct E as (o & Hin & Hout).
    by destruct (Hout (Hall o Hin)).
Qed.

Lemma node_column_found cy table_column network :
  node_column cy table_column network →
  Py.contains (col_name <$> table_columns cy (network_suid cy network) "defaultnode")
    table_column = true.
Proof. intros H. by apply contains_elem_of. Qed.

Lemma table_column_exists_node cy table_column network :
  node_column cy table_column network →
  table_column_exists table_column "node" network cy
  = (Return true, log (TableColumnExists table_column "node" network) cy).
Proof.
  intros Hcol. unfold table_column_exists.
  change ("default" ++ "node") with "defaultnode".
  by rewrite node_column_found.
Qed.

(** Unfold an opacity function up to its checks. *)
Ltac opacity_checks Hcol :=
  unfold set_node_border_opacity_mapping, set_node_combo_opacity_mapping,
    set_node_fill_opacity_mapping;
  unfold bind at 1; rewrite (table_column_exists_node _ _ _ Hcol);
  cbv beta iota delta [negb].

(** C9, as the code has it: when the column is in the node table and some
    opacity, or else the default opacity, is outside the range from 0 to
    255, each of the three opacity functions returns [None] without
    raising; besides the check of the column and a message on [stderr] it
    makes no call: the builder is not invoked, nothing is written and no
    default is pushed.  A default opacity inside the range is pushed after
    the checks and before the mapping. *)
Theorem opacity_out_of_range cy table_column table_column_values opacities
    mapping_type default_opacity style_name network :
  node_column cy table_column network →
  ((∃ o, o ∈ default [] opacities ∧ ¬ in_range o)
   ∨ (∃ d, default_opacity = Some d ∧ ¬ in_range d) →
   ∃ msg,
     set_node_border_opacity_mapping table_column table_column_values opacities
       mapping_type default_opacity style_name network cy
     = rejected cy table_column network msg
     ∧ set_node_combo_opacity_mapping table_column table_column_values opacities
         mapping_type default_opacity style_name network cy
       = rejected cy table_column network msg
     ∧ set_node_fill_opacity_mapping table_column table_column_values opacities
         mapping_type default_opacity style_name network cy
       = rejected cy table_column network msg)
  ∧ (Forall in_range (default [] opacities) →
     (∀ d, default_opacity = Some d → in_range d) →
     set_node_border_opacity_mapping table_column table_column_values opacities
       mapping_type default_opacity style_name network cy
     = _update_style_mapping Text.str_int "NODE_BORDER_TRANSPARENCY" table_column
         table_column_values opacities mapping_type style_name network all_mappings
         (opacity_checked "NODE_BORDER_TRANSPARENCY" cy table_column network
            default_opacity style_name)
     ∧ set_node_fill_opacity_mapping table_column table_column_values opacities
         mapping_type default_opacity style_name network cy
       = _update_style_mapping Text.str_int "NODE_TRANSPARENCY" table_column
           table_column_values opacities mapping_type style_name network all_mappings
           (opacity_checked "NODE_TRANSPARENCY" cy table_column network
              default_opacity style_name)).
Proof.
  intros Hcol. split.
  - intros Hout.
    destruct (existsb out_of_range (default [] opacities)) eqn:Eops.
    + exists "Error: opacities must be between 0 and 255.".
      repeat split; opacity_checks Hcol; rewrite Eops;
        unfold rejected, bind, stderr_write, ret; by calls_norm.
    + destruct Hout as [Hops | (d & -> & Hd)].
      { apply some_out_of_range in Hops. congruence. }
      apply out_of_range_spec in Hd.
      exists "Error: opacity must be between 0 and 255.".
      repeat split; opacity_checks Hcol; rewrite Eops, Hd;
        unfold rejected, bind, stderr_write, ret; by calls_norm.
  - intros Hops Hdef. apply none_out_of_range in Hops.
    split; opacity_checks Hcol; rewrite Hops; unfold opacity_checked;
      destruct default_opacity as [d |]; try done;
      (assert (Hd : out_of_range d = false) by (apply out_of_range_false; by apply Hdef));
      rewrite Hd; reflexivity.
Qed.

(** A build followed by its application, when it is acknowledged. *)
Lemma build_and_apply_acknowledged (visual_prop_name table_column kind : string)
    (cols : option (list K)) (props : option (list string)) style_name network
    cy r cy' :
  (let! mvp := map_visual_property visual_prop_name table_column kind cols props network in
   let! res := update_style_mapping style_name mvp in
   ret (Some res)) cy = (Return (Some r), cy') →
  ∃ doc write,
    visualProperty doc = normalize_property visual_prop_name
    ∧ applied cy' style_name doc
    ∧ (∀ m, applied cy style_name m →
         visualProperty m ≠ normalize_property visual_prop_name →
         applied cy' style_name m)
    ∧ same_schema cy cy'
    ∧ is_write write = true
    ∧ calls cy' = (calls cy ++ builder_reads cy visual_prop_name network
                     ++ [CyrestGet (mappings_url style_name); write])%list.
Proof.
  unfold bind at 1.
  destruct (map_visual_property visual_prop_name table_column kind cols props network cy)
    as [[doc | e] cy1] eqn:Hbuild; [| done].
  apply map_visual_property_returns in Hbuild as [(ty & cm & cp & ->) ->].
  destruct (update_style_mapping_spec (after_reads cy visual_prop_name network) style_name
              (header visual_prop_name table_column kind ty cm cp))
    as (write & cy2 & Hupd & Hcalls & Hwrite & Hschema & Happlied & Hkept).
  unfold bind. rewrite Hupd. unfold ret. intros [= <- <-].
  exists (header visual_prop_name table_column kind ty cm cp), write.
  split; [reflexivity |]. split; [exact Happlied |].
  split; [exact Hkept |]. split; [exact Hschema |]. split; [exact Hwrite |].
  rewrite Hcalls. simpl. by rewrite <- app_assoc.
Qed.

(** The dispatcher, when it returns an acknowledgement. *)
Lemma dispatch_acknowledged {R : Type} (str : R → string)
    (visual_prop_name table_column : string) (table_column_values : option (list K))
    (range_map : option (list R)) (mapping_type style_name : string)
    (network : option string) (supported_mappings : list string) cy r cy' :
  _update_style_mapping str visual_prop_name table_column table_column_values range_map
    mapping_type style_name network supported_mappings cy = (Return (Some r), cy') →
  ∃ doc write,
    visualProperty doc = normalize_property visual_prop_name
    ∧ applied cy' style_name doc
    ∧ (∀ m, applied cy style_name m →
         visualProperty m ≠ normalize_property visual_prop_name →
         applied cy' style_name m)
    ∧ same_schema cy cy'
    ∧ is_write write = true
    ∧ calls cy' = (calls cy ++ builder_reads cy visual_prop_name network
                     ++ [CyrestGet (mappings_url style_name); write])%list.
Proof.
  unfold _update_style_mapping.
  destruct (Py.contains ["continuous"; "c"; "interpolate"] mapping_type).
  { destruct (Py.contains supported_mappings "c"); [| done].
    apply build_and_apply_acknowledged. }
  destruct (Py.contains ["discrete"; "d"; "lookup"] mapping_type).
  { destruct (Py.contains supported_mappings "d"); [| done].
    apply build_and_apply_acknowledged. }
  destruct (Py.contains ["passthrough"; "p"] mapping_type).
  { destruct (Py.contains supported_mappings "p"); [| done].
    apply build_and_apply_acknowledged. }
  done.
Qed.

Lemma same_schema_refl cy : same_schema cy cy.
Proof. by repeat split. Qed.

Lemma same_schema_trans cy1 cy2 cy3 :
  same_schema cy1 cy2 → same_schema cy2 cy3 → same_schema cy1 cy3.
Proof.
  intros (H1 & H2 & H3) (H1' & H2' & H3'). repeat split; congruence.
Qed.

Lemma combo_checked_schema cy table_column network default_opacity style_name :
  same_schema cy (combo_checked cy table_column network default_opacity style_name).
Proof. unfold combo_checked. by destruct default_opacity. Qed.

(** Whether a build followed by its application is acknowledged depends on
    the schema only. *)
Lemma build_and_apply_schema (visual_prop_name table_column kind : string)
    (cols : option (list K)) (props : option (list string)) style_name network cy cy' :
  same_schema cy cy' →
  fst ((let! mvp := map_visual_property visual_prop_name table_column kind cols props network in
        let! res := update_style_mapping style_name mvp in
        ret (Some res)) cy')
  = fst ((let! mvp := map_visual_property visual_prop_name table_column kind cols props network in
          let! res := update_style_mapping style_name mvp in
          ret (Some res)) cy).
Proof.
  intros Hschema.
  pose proof (map_visual_property_schema cy cy' visual_prop_name table_column kind
                cols props network Hschema) as Hbuild.
  unfold bind at 1 3.
  destruct (map_visual_property _ _ _ _ _ _ cy) as [[doc | e] cy1];
    destruct (map_visual_property _ _ _ _ _ _ cy') as [[doc' | e'] cy1'];
    simpl in Hbuild; try discriminate Hbuild; injection Hbuild as ->; [| done].
  destruct (update_style_mapping_spec cy1 style_name doc) as (w & cy2 & Hrun & _).
  destruct (update_style_mapping_spec cy1' style_name doc) as (w' & cy2' & Hrun' & _).
  unfold bind. by rewrite Hrun, Hrun'.
Qed.

Lemma dispatch_schema {R : Type} (str : R → string)
    (visual_prop_name table_column : string) (table_column_values : option (list K))
    (range_map : option (list R)) (mapping_type style_name : string)
    (network : option string) (supported_mappings : list string) cy cy' :
  same_schema cy cy' →
  fst (_update_style_mapping str visual_prop_name table_column table_column_values range_map
         mapping_type style_name network supported_mappings cy')
  = fst (_update_style_mapping str visual_prop_name table_column table_column_values range_map
           mapping_type style_name network supported_mappings cy).
Proof.
  intros Hschema. unfold _update_style_mapping.
  destruct (Py.contains ["continuous"; "c"; "interpolate"] mapping_type).
  { destruct (Py.contains supported_mappings "c"); [| done].
    by apply build_and_apply_schema. }
  destruct (Py.contains ["discrete"; "d"; "lookup"] mapping_type).
  { destruct (Py.contains supported_mappings "d"); [| done].
    by apply build_and_apply_schema. }
  destruct (Py.contains ["passthrough"; "p"] mapping_type).
  { destruct (Py.contains supported_mappings "p"); [| done].
    by apply build_and_apply_schema. }
  done.
Qed.

Lemma bind_ret {A : Type} (m : Cy K string A) cy :
  (let! res := m in ret res) cy = m cy.
Proof. unfold bind, ret. by destruct (m cy) as [[a | e] cy']. Qed.

Lemma run_run_bind_ret {A B C : Type} (a : Cy K string A) (b : Cy K string B)
    (c : Cy K string C) cy :
  (run! a in run! b in let! res := c in ret res) cy = (run! a in run! b in c) cy.
Proof.
  unfold bind, ret. destruct (a cy) as [[? | ?] cy1]; [| done].
  destruct (b cy1) as [[? | ?] cy2]; [| done].
  by destruct (c cy2) as [[? | ?] cy3].
Qed.

(** The combined function, when its checks pass, is the three mappings in
    a row from the state [combo_checked]. *)
Lemma combo_checks_pass cy table_column table_column_values opacities
    mapping_type default_opacity style_name network :
  node_column cy table_column network →
  Forall in_range (default [] opacities) →
  (∀ d, default_opacity = Some d → in_range d) →
  set_node_combo_opacity_mapping table_column table_column_values opacities
    mapping_type default_opacity style_name network cy
  = (run! _update_style_mapping Text.str_int "NODE_TRANSPARENCY" table_column
            table_column_values opacities mapping_type style_name network all_mappings in
     run! _update_style_mapping Text.str_int "NODE_BORDER_TRANSPARENCY" table_column
            table_column_values opacities mapping_type style_name network all_mappings in
     _update_style_mapping Text.str_int "NODE_LABEL_TRANSPARENCY" table_column
       table_column_values opacities mapping_type style_name network all_mappings)
      (combo_checked cy table_column network default_opacity style_name).
Proof.
  intros Hcol Hops Hdef. apply none_out_of_range in Hops.
  opacity_checks Hcol. rewrite Hops. unfold combo_checked.
  destruct default_opacity as [d |].
  - assert (Hd : out_of_range d = false) by (apply out_of_range_false; by apply Hdef).
    rewrite Hd. unfold bind at 1 2 3. simpl. apply run_run_bind_ret.
  - apply run_run_bind_ret.
Qed.

(** C8, as the code has it: when the checks of the combined opacity
    function pass, the mapping is applied to the fill, the border and the
    label transparency in this order, each one only when the one before
    has returned.  An exception raised by one of them is raised by the
    function, in the state in which that one left Cytoscape: the later
    ones are not attempted.  When the first two return, whatever they
    return, the function returns what the third returns.  When each of the
    three mappings is one that would be acknowledged on its own, the function
    returns the acknowledgement and the style then holds a document for each
    of the three properties. *)
Theorem combo_opacity_in_sequence cy table_column table_column_values opacities
    mapping_type default_opacity style_name network :
  node_column cy table_column network →
  Forall in_range (default [] opacities) →
  (∀ d, default_opacity = Some d → in_range d) →
  let mapping visual_prop_name :=
    _update_style_mapping Text.str_int visual_prop_name table_column
      table_column_values opacities mapping_type style_name network all_mappings in
  let combo :=
    set_node_combo_opacity_mapping table_column table_column_values opacities
      mapping_type default_opacity style_name network in
  let cy0 := combo_checked cy table_column network default_opacity style_name in
  (∀ e cy1,
     mapping "NODE_TRANSPARENCY" cy0 = (Raise e, cy1) →
     combo cy = (Raise e, cy1))
  ∧ (∀ r1 cy1 e cy2,
     mapping "NODE_TRANSPARENCY" cy0 = (Return r1, cy1) →
     mapping "NODE_BORDER_TRANSPARENCY" cy1 = (Raise e, cy2) →
     combo cy = (Raise e, cy2))
  ∧ (∀ r1 cy1 r2 cy2,
     mapping "NODE_TRANSPARENCY" cy0 = (Return r1, cy1) →
     mapping "NODE_BORDER_TRANSPARENCY" cy1 = (Return r2, cy2) →
     combo cy = mapping "NODE_LABEL_TRANSPARENCY" cy2)
  ∧ (fst (mapping "NODE_TRANSPARENCY" cy) = Return (Some EmptyString) →
     fst (mapping "NODE_BORDER_TRANSPARENCY" cy) = Return (Some EmptyString) →
     fst (mapping "NODE_LABEL_TRANSPARENCY" cy) = Return (Some EmptyString) →
     ∃ cy3 fill border label,
       combo cy = (Return (Some EmptyString), cy3)
       ∧ visualProperty fill = "NODE_TRANSPARENCY"
       ∧ visualProperty border = "NODE_BORDER_TRANSPARENCY"
       ∧ visualProperty label = "NODE_LABEL_TRANSPARENCY"
       ∧ applied cy3 style_name fill
       ∧ applied cy3 style_name border
       ∧ applied cy3 style_name label).
Proof.
  intros Hcol Hops Hdef mapping combo cy0.
  assert (Hcombo : combo cy
            = (run! mapping "NODE_TRANSPARENCY" in
               run! mapping "NODE_BORDER_TRANSPARENCY" in
               mapping "NODE_LABEL_TRANSPARENCY") cy0).
  { by apply combo_checks_pass. }
  assert (H3 : ∀ r1 cy1 r2 cy2,
     mapping "NODE_TRANSPARENCY" cy0 = (Return r1, cy1) →
     mapping "NODE_BORDER_TRANSPARENCY" cy1 = (Return r2, cy2) →
     combo cy = mapping "NODE_LABEL_TRANSPARENCY" cy2).
  { intros r1 cy1 r2 cy2 H1 H2. rewrite Hcombo. unfold bind. by rewrite H1, H2. }
  split; [| split; [| split; [exact H3 |]]].
  - intros e cy1 H1. rewrite Hcombo. unfold bind. by rewrite H1.
  - intros r1 cy1 e cy2 H1 H2. rewrite Hcombo. unfold bind. by rewrite H1, H2.
  - intros Hfill Hborder Hlabel.
    assert (Hs0 : same_schema cy cy0) by apply combo_checked_schema.
    destruct (mapping "NODE_TRANSPARENCY" cy0) as [o1 cy1] eqn:H1.
    assert (o1 = Return (Some EmptyString)) as ->.
    { rewrite <- Hfill. change o1 with (fst (o1, cy1)). rewrite <- H1.
      by apply dispatch_schema. }
    pose proof H1 as H1'.
    apply dispatch_acknowledged in H1' as (fill & w1 & Hf & Hfa & _ & Hs1 & _).
    destruct (mapping "NODE_BORDER_TRANSPARENCY" cy1) as [o2 cy2] eqn:H2.
    assert (o2 = Return (Some EmptyString)) as ->.
    { rewrite <- Hborder. change o2 with (fst (o2, cy2)). rewrite <- H2.
      apply dispatch_schema. by apply (same_schema_trans cy cy0 cy1). }
    pose proof H2 as H2'.
    apply dispatch_acknowledged in H2' as (border & w2 & Hb & Hba & Hkeep2 & Hs2 & _).
    destruct (mapping "NODE_LABEL_TRANSPARENCY" cy2) as [o3 cy3] eqn:H3'.
    assert (o3 = Return (Some EmptyString)) as ->.
    { rewrite <- Hlabel. change o3 with (fst (o3, cy3)). rewrite <- H3'.
      apply dispatch_schema.
      apply (same_schema_trans cy cy1 cy2); [| done].
      by apply (same_schema_trans cy cy0 cy1). }
    pose proof H3' as H3''.
    apply dispatch_acknowledged in H3'' as (label & w3 & Hl & Hla & Hkeep3 & _).
    exists cy3, fill, border, label.
    split; [rewrite Hcombo; unfold bind; by rewrite H1, H2, H3' |].
    split; [exact Hf |]. split; [exact Hb |]. split; [exact Hl |].
    split; [| split; [| exact Hla]].
    + apply Hkeep3; [apply Hkeep2; [exact Hfa |] |]; by rewrite Hf.
    + apply Hkeep3; [exact Hba |]. by rewrite Hb.
Qed.

End Opacity.

(** ** The statements on the session [galFiltered] *)

Section OnSession.
Import Session.

Local Ltac known := vm_compute; in_list.
Local Ltac unknown := apply contains_false; vm_compute; reflexivity.

Lemma continuous_equal_lengths_witness :
  ∃ points,
    fst (map_visual_property "node fill color" "score" "c"
           (Some [-2; 0; 2]%Z) (Some ["#0066CC"; "#FFFFFF"; "#FFFF00"]) None galFiltered)
    = Return {| mappingType := "continuous"; mappingColumn := "score";
                mappingColumnType := "Double"; visualProperty := "NODE_FILL_COLOR";
                cargo_map := None; cargo_points := Some points |}
    ∧ length points = 3%nat
    ∧ points !! 1%nat = Some {| p_value := 0%Z; p_lesser := "#FFFFFF";
                                p_equal := "#FFFFFF"; p_greater := "#FFFFFF" |}.
Proof.
  destruct (continuous_equal_lengths galFiltered "node fill color" "score" "c"
              [-2; 0; 2]%Z ["#0066CC"; "#FFFFFF"; "#FFFF00"] None "Double")
    as (points & Hdoc & Hlen & Hpoints);
    [by left | known | reflexivity | reflexivity |].
  exists points. split; [exact Hdoc |]. split; [exact Hlen |].
  destruct (Hpoints 1%nat 0%Z eq_refl) as (prop_val & Hprop & Hpoint).
  injection Hprop as <-. exact Hpoint.
Defined.

Lemma continuous_two_extra_witness :
  ∃ points,
    fst (map_visual_property "node fill color" "score" "continuous"
           (Some [-2; 0; 2]%Z)
           (Some ["#000099"; "#0066CC"; "#FFFFFF"; "#FFFF00"; "#999900"]) None galFiltered)
    = Return {| mappingType := "continuous"; mappingColumn := "score";
                mappingColumnType := "Double"; visualProperty := "NODE_FILL_COLOR";
                cargo_map := None; cargo_points := Some points |}
    ∧ points !! 0%nat = Some {| p_value := (-2)%Z; p_lesser := "#000099";
                                p_equal := "#0066CC"; p_greater := "#0066CC" |}
    ∧ points !! 2%nat = Some {| p_value := 2%Z; p_lesser := "#FFFF00";
                                p_equal := "#FFFF00"; p_greater := "#999900" |}.
Proof.
  destruct (continuous_two_extra galFiltered "node fill color" "score" "continuous"
              [-2; 0; 2]%Z ["#000099"; "#0066CC"; "#FFFFFF"; "#FFFF00"; "#999900"]
              None "Double")
    as (points & first_val & last_val & Hdoc & Hlen & Hfirst & Hlast & Hpoints);
    [by right | known | reflexivity | discriminate | reflexivity |].
  exists points. split; [exact Hdoc |].
  injection Hfirst as <-. injection Hlast as <-.
  destruct (Hpoints 0%nat (-2)%Z eq_refl) as (p0 & Hp0 & Hpoint0).
  destruct (Hpoints 2%nat 2%Z eq_refl) as (p2 & Hp2 & Hpoint2).
  injection Hp0 as <-. injection Hp2 as <-.
  split; [exact Hpoint0 | exact Hpoint2].
Defined.

(** C2: the claim fails on a build without column values.  Two property
    values are exactly two more than no column value, so the claim asks
    for a points payload with one waypoint per column value, that is with
    none; the build raises [IndexError] at [points[0]] (line 144) instead
    and returns no document.  The branch of line 146 for equally long
    lists does return the document with no point when there is no column
    value. *)
Lemma continuous_two_extra_no_columns :
  known_property galFiltered "node fill color"
  ∧ declared_type galFiltered "node fill color" "score" None = Some "Double"
  ∧ length ["#000099"; "#999900"] = (length (@nil Z) + 2)%nat
  ∧ fst (map_visual_property "node fill color" "score" "c"
           (Some (@nil Z)) (Some ["#000099"; "#999900"]) None galFiltered)
    = Raise IndexError
  ∧ (∀ doc,
      fst (map_visual_property "node fill color" "score" "c"
             (Some (@nil Z)) (Some ["#000099"; "#999900"]) None galFiltered)
      ≠ Return doc)
  ∧ fst (map_visual_property "node fill color" "score" "c"
           (Some (@nil Z)) (Some []) None galFiltered)
    = Return {| mappingType := "continuous"; mappingColumn := "score";
                mappingColumnType := "Double"; visualProperty := "NODE_FILL_COLOR";
                cargo_map := None; cargo_points := Some [] |}.
Proof. split; [known |]. by repeat split. Qed.

Lemma continuous_mismatched_lengths_witness :
  fst (map_visual_property "node fill color" "score" "c"
         (Some [-2; 0; 2]%Z) (Some ["#0066CC"; "#FFFFFF"]) None galFiltered)
  = Raise (CyError mismatch_msg).
Proof.
  destruct (continuous_mismatched_lengths galFiltered "node fill color" "score" "c"
              [-2; 0; 2]%Z ["#0066CC"; "#FFFFFF"] None)
    as (msg & Hraise & Hmsg);
    [by left | vm_compute; discriminate | vm_compute; discriminate |].
  rewrite Hraise. f_equal. f_equal. apply Hmsg; [known | by eexists].
Defined.

Lemma discrete_pairs_witness :
  ∃ map,
    fst (map_visual_property "node shape" "Degree" "d"
           (Some [1; 2; 3]%Z) (Some ["ellipse"; "rectangle"]) None galFiltered)
    = Return {| mappingType := "discrete"; mappingColumn := "Degree";
                mappingColumnType := "Integer"; visualProperty := "NODE_SHAPE";
                cargo_map := Some map; cargo_points := None |}
    ∧ length map = 2%nat
    ∧ map !! 1%nat = Some {| e_key := 2%Z; e_value := "rectangle" |}
    ∧ map !! 2%nat = None.
Proof.
  destruct (discrete_pairs galFiltered "node shape" "Degree" "d"
              [1; 2; 3]%Z ["ellipse"; "rectangle"] None "Integer")
    as (map & Hdoc & Hlen & _ & Hpairs & Hbeyond);
    [by left | known | reflexivity |].
  exists map. split; [exact Hdoc |]. split; [exact Hlen |].
  split; [| apply Hbeyond; simpl; lia].
  destruct (Hpairs 1%nat) as (col_val & prop_val & Hcol & Hprop & Hentry); [simpl; lia |].
  injection Hcol as <-. injection Hprop as <-. exact Hentry.
Defined.

Lemma validation_exact_witness :
  fst (map_visual_property "edge color" "weight" "p" (Some (@nil Z)) (Some []) None galFiltered)
  = Raise (CyError "Could not find weight column in defaultedge table.").
Proof.
  pose proof (validation_exact galFiltered "edge color" "weight" "p"
                (Some (@nil Z)) (Some []) None eq_refl) as Hexact.
  cbv zeta in Hexact. destruct Hexact as (_ & _ & _ & _ & _ & [_ Hraise] & _).
  destruct Hraise as (e & He & [Hname | Hcol]).
  - right. unknown.
  - exfalso. rewrite Hname in He. vm_compute in He. discriminate He.
  - rewrite He, Hcol. reflexivity.
Defined.

Lemma update_puts_or_posts_witness :
  calls (snd (update_style_mapping "galFiltered Style" label_passthrough galFiltered))
  = [CyrestGet "styles/galFiltered Style/mappings";
     CyrestPut "styles/galFiltered Style/mappings/NODE_LABEL" [label_passthrough]].
Proof.
  destruct (update_puts_or_posts galFiltered "galFiltered Style" label_passthrough)
    as (write & cy' & Hrun & Hcalls & _ & Hput & _).
  destruct Hput as [Hput _]; [known |].
  rewrite Hrun. simpl snd. rewrite Hcalls, Hput. reflexivity.
Defined.

Lemma delete_absent_witness :
  ∃ cy1,
    delete_style_mapping "galFiltered Style" "NODE_SHAPE" galFiltered = (Return None, cy1)
    ∧ fst (delete_style_mapping "galFiltered Style" "NODE_SHAPE" cy1) = Return None.
Proof.
  destruct (delete_absent galFiltered "galFiltered Style" "NODE_SHAPE")
    as (cy1 & cy2 & Hfirst & _ & _ & Hsecond & _).
  - unknown.
  - exists cy1. split; [exact Hfirst |]. by rewrite Hsecond.
Defined.

Lemma unrecognized_kind_verbatim_witness :
  fst (map_visual_property "edge color" "interaction" "gradient"
         (Some [1; 2]%Z) (Some ["#000000"]) None galFiltered)
  = Return {| mappingType := "gradient"; mappingColumn := "interaction";
              mappingColumnType := "String"; visualProperty := "EDGE_UNSELECTED_PAINT";
              cargo_map := None; cargo_points := None |}.
Proof.
  destruct (unrecognized_kind_verbatim galFiltered "edge color" "interaction" "gradient"
              (Some [1; 2]%Z) (Some ["#000000"]) None) as [Hdoc _].
  - unknown.
  - apply (Hdoc "String"); [known | reflexivity].
Defined.

Lemma opacity_out_of_range_witness :
  ∃ msg,
    set_node_border_opacity_mapping "Degree" None (Some [300]%Z) "c" None
      "galFiltered Style" None galFiltered
    = rejected galFiltered "Degree" None msg.
Proof.
  destruct (opacity_out_of_range galFiltered "Degree" None (Some [300]%Z) "c" None
              "galFiltered Style" None) as [Hrejected _]; [known |].
  destruct Hrejected as (msg & Hborder & _).
  - left. exists 300%Z. split; [in_list | unfold in_range; lia].
  - by exists msg.
Defined.

(** C9 as stated fails when the column is not in the node table: the
    function raises [CyError] at the check of the column, before it looks
    at the opacities. *)
Lemma opacity_out_of_range_missing_column :
  (∃ o, o ∈ [300]%Z ∧ ¬ in_range o)
  ∧ ¬ node_column galFiltered "Weight" None
  ∧ fst (set_node_border_opacity_mapping "Weight" None (Some [300]%Z) "c" None
           "galFiltered Style" None galFiltered)
    = Raise (CyError "Table column does not exist. Please try again.")
  ∧ fst (set_node_border_opacity_mapping "Weight" None (Some [300]%Z) "c" None
           "galFiltered Style" None galFiltered)
    ≠ Return None
  ∧ calls (snd (set_node_border_opacity_mapping "Weight" None (Some [300]%Z) "c" None
                  "galFiltered Style" None galFiltered))
    = [TableColumnExists "Weight" "node" None].
Proof.
  split; [exists 300%Z; split; [in_list | unfold in_range; lia] |].
  split; [unknown |]. by repeat split.
Qed.

Lemma combo_opacity_in_sequence_witness :
  ∃ cy3 fill border label,
    set_node_combo_opacity_mapping "Degree" (Some [1; 2]%Z) (Some [50; 100]%Z) "d"
      (Some 225%Z) "galFiltered Style" None galFiltered
    = (Return (Some EmptyString), cy3)
    ∧ visualProperty fill = "NODE_TRANSPARENCY"
    ∧ visualProperty border = "NODE_BORDER_TRANSPARENCY"
    ∧ visualProperty label = "NODE_LABEL_TRANSPARENCY"
    ∧ applied cy3 "galFiltered Style" fill
    ∧ applied cy3 "galFiltered Style" border
    ∧ applied cy3 "galFiltered Style" label.
Proof.
  destruct (combo_opacity_in_sequence galFiltered "Degree" (Some [1; 2]%Z)
              (Some [50; 100]%Z) "d" (Some 225%Z) "galFiltered Style" None)
    as (_ & _ & _ & Hall).
  - known.
  - repeat constructor; unfold in_range; lia.
  - intros d [= <-]. unfold in_range. lia.
  - apply Hall; vm_compute; reflexivity.
Defined.

(** C8 as stated fails when an earlier mapping raises: with one opacity for
    two column values the checks pass, the mapping of the fill transparency
    raises the error of mismatched lengths, the function raises it, and
    the builder has been entered once only: the border and the label
    transparency are not attempted. *)
Lemma combo_opacity_stops_at_first_error :
  node_column galFiltered "Degree" None
  ∧ Forall in_range [50]%Z
  ∧ fst (set_node_combo_opacity_mapping "Degree" (Some [1; 2]%Z) (Some [50]%Z) "c"
           None "galFiltered Style" None galFiltered)
    = Raise (CyError mismatch_msg)
  ∧ calls (snd (set_node_combo_opacity_mapping "Degree" (Some [1; 2]%Z) (Some [50]%Z) "c"
                  None "galFiltered Style" None galFiltered))
    = [TableColumnExists "Degree" "node" None;
       GetNetworkSuid None; GetVisualPropertyNames;
       CyrestGet "networks/52/tables/defaultnode/columns";
       StderrWrite mismatch_msg]
  ∧ style_mappings
      (snd (set_node_combo_opacity_mapping "Degree" (Some [1; 2]%Z) (Some [50]%Z) "c"
              None "galFiltered Style" None galFiltered)) "galFiltered Style"
    = [label_passthrough].
Proof.
  split; [known |].
  split; [repeat constructor; unfold in_range; lia |]. by repeat split.
Qed.

End OnSession.

(** ** Further properties: the name of the property *)

Section Names.

Lemma upper_char_idempotent (c : ascii) :
  Text.upper_char (Text.upper_char c) = Text.upper_char c.
Proof. destruct c as [[] [] [] [] [] [] [] []]; reflexivity. Qed.

Lemma upper_char_id (c : ascii) : Text.is_lower c = false → Text.upper_char c = c.
Proof. intros H. unfold Text.upper_char. by rewrite H. Qed.

Lemma upper_id (s : string) :
  Forall (fun c => Text.is_lower c = false) (list_ascii_of_string s) → Text.upper s = s.
Proof.
  induction s as [| c s IH]; simpl; [done |].
  intros H. apply Forall_cons in H as [Hc Hs].
  rewrite (upper_char_id c Hc). f_equal. by apply IH.
Qed.

(** The alias table maps to names that are not aliases themselves. *)
Lemma alias_cases (s : string) :
  (Py.dict_get PROPERTY_NAMES s = None ∧ Py.dict_get_default PROPERTY_NAMES s = s)
  ∨ (Py.dict_get_default PROPERTY_NAMES s
       ∈ ["EDGE_UNSELECTED_PAINT"; "EDGE_WIDTH"; "NODE_BORDER_PAINT"; "NODE_BORDER_STROKE"]
     ∧ s ∈ ["EDGE_COLOR"; "EDGE_THICKNESS"; "NODE_BORDER_COLOR"; "NODE_BORDER_LINE_TYPE"]).
Proof.
  unfold Py.dict_get_default, PROPERTY_NAMES. simpl.
  repeat match goal with
    | |- context [String.eqb s ?k] =>
        destruct (String.eqb_spec s k) as [-> | _]; [right; split; in_list |]
    end.
  by left.
Qed.

(** A name as the builder writes it has neither whitespace nor a lower-case
    letter. *)
Lemma normalize_property_chars (visual_prop : string) :
  Forall (fun c => Text.is_space c = false ∧ Text.is_lower c = false)
    (list_ascii_of_string (normalize_property visual_prop)).
Proof.
  unfold normalize_property.
  destruct (alias_cases (Text.upper (Text.re_sub_spaces visual_prop))) as [[_ ->] | [Hin _]].
  - apply upper_sub_spaces_chars.
  - rewrite !elem_of_cons, elem_of_nil in Hin.
    destruct Hin as [-> | [-> | [-> | [-> | []]]]];
      simpl; repeat constructor.
Qed.

Lemma upper_char_ascii (c : ascii) :
  (nat_of_ascii c <? 128)%nat = true → (nat_of_ascii (Text.upper_char c) <? 128)%nat = true.
Proof. destruct c as [[] [] [] [] [] [] [] []]; vm_compute; done. Qed.

Lemma upper_ascii (s : string) :
  Text.isascii s = true → Text.isascii (Text.upper s) = true.
Proof.
  unfold Text.isascii. induction s as [| c s IH]; [done |].
  cbn [Text.upper list_ascii_of_string forallb].
  rewrite !andb_true_iff. intros [Hc Hs]. split; [by apply upper_char_ascii | by apply IH].
Qed.

Lemma sub_spaces_ascii (in_run : bool) (s : string) :
  Text.isascii s = true → Text.isascii (Text.sub_spaces in_run s) = true.
Proof.
  unfold Text.isascii. revert in_run. induction s as [| c s IH]; intros in_run; [done |].
  cbn [Text.sub_spaces list_ascii_of_string forallb].
  rewrite andb_true_iff. intros [Hc Hs].
  destruct (Text.is_space c).
  - destruct in_run; [by apply IH |].
    cbn [list_ascii_of_string forallb]. apply andb_true_iff. split; [done | by apply IH].
  - cbn [list_ascii_of_string forallb]. apply andb_true_iff. split; [done | by apply IH].
Qed.

(** A name of ASCII characters is normalized to a name of ASCII characters. *)
Lemma normalize_property_ascii (visual_prop : string) :
  Text.isascii visual_prop = true → Text.isascii (normalize_property visual_prop) = true.
Proof.
  intros Hascii. unfold normalize_property.
  destruct (alias_cases (Text.upper (Text.re_sub_spaces visual_prop))) as [[_ ->] | [Hin _]].
  - by apply upper_ascii, sub_spaces_ascii.
  - rewrite !elem_of_cons, elem_of_nil in Hin.
    destruct Hin as [-> | [-> | [-> | [-> | []]]]]; reflexivity.
Qed.

(** X1: for a property name of ASCII characters, the name that the builder
    writes into a document is again a name of ASCII characters and a fixed
    point of the normalization: normalizing it again gives the same name,
    so a document's [visualProperty] can be given back to the builder. *)
Theorem normalize_property_idempotent (visual_prop : string) :
  Text.isascii visual_prop = true →
  Text.isascii (normalize_property visual_prop) = true
  ∧ normalize_property (normalize_property visual_prop) = normalize_property visual_prop.
Proof.
  intros Hascii. split; [by apply normalize_property_ascii |].
  pose proof (normalize_property_chars visual_prop) as Hchars.
  assert (Hsub : Text.re_sub_spaces (normalize_property visual_prop)
                 = normalize_property visual_prop).
  { apply sub_spaces_id. eapply Forall_impl; [exact Hchars |]. by intros c [? ?]. }
  assert (Hup : Text.upper (normalize_property visual_prop) = normalize_property visual_prop).
  { apply upper_id. eapply Forall_impl; [exact Hchars |]. by intros c [? ?]. }
  unfold normalize_property at 1. rewrite Hsub, Hup.
  unfold normalize_property.
  destruct (alias_cases (Text.upper (Text.re_sub_spaces visual_prop)))
    as [[Hnone Hsame] | [Hin _]].
  - rewrite Hsame. unfold Py.dict_get_default. by rewrite Hnone.
  - rewrite !elem_of_cons, elem_of_nil in Hin.
    destruct Hin as [-> | [-> | [-> | [-> | []]]]]; reflexivity.
Qed.

(** X2: the alias table never moves a property to another table: the table
    that the builder reads is the one selected by the text before the first
    underscore of the upper-cased name, alias or not. *)
Theorem alias_keeps_table (visual_prop : string) :
  table_of (normalize_property visual_prop)
  = "default" ++ Text.lower (Text.split_first (Text.upper (Text.re_sub_spaces visual_prop))).
Proof.
  unfold normalize_property, table_of.
  destruct (alias_cases (Text.upper (Text.re_sub_spaces visual_prop)))
    as [[_ ->] | [_ Hkey]]; [done |].
  rewrite !elem_of_cons, elem_of_nil in Hkey.
  destruct Hkey as [-> | [-> | [-> | [-> | []]]]]; reflexivity.
Qed.

End Names.

(** ** Further properties: the builder *)

Section BuilderFurther.
Context {K V : Type}.
Implicit Types (cy : Cytoscape K V) (cols : option (list K)) (props : option (list V)).

Lemma kind_passthrough (mapping_type : string) :
  mapping_type = "p" ∨ mapping_type = "passthrough" →
  Py.dict_get_default MAPPING_TYPES mapping_type = "passthrough".
Proof. by intros [-> | ->]. Qed.

(** The state in which the cargo step leaves Cytoscape. *)
Lemma cargo_state cy visual_prop table_column mapping_type cols props network ty :
  known_property cy visual_prop →
  declared_type cy visual_prop table_column network = Some ty →
  snd (map_visual_property visual_prop table_column mapping_type cols props network cy)
  = after_reads cy visual_prop network
  ∨ snd (map_visual_property visual_prop table_column mapping_type cols props network cy)
    = log (StderrWrite mismatch_msg) (after_reads cy visual_prop network).
Proof.
  intros Hknown Hty.
  rewrite (map_visual_property_validated _ _ _ _ _ _ _ ty Hknown Hty). simpl.
  destruct (String.eqb _ "discrete").
  - left. unfold bind, discrete_map, raise, ret.
    destruct cols; [| done]. by destruct props.
  - destruct (String.eqb _ "continuous"); [| by left].
    unfold bind, continuous_points, raise, ret, stderr_write.
    destruct props as [visual_prop_values |]; [| by left].
    destruct cols as [table_column_values |]; [| by left].
    destruct (_ =? 2)%Z.
    + left. by destruct (points_with_extremes _ _).
    + destruct (_ =? 0)%Z; [by left | by right].
Qed.

(** X3: the builder only reads.  Whatever its arguments and whether it
    returns or raises, it leaves the schema, the mappings and the defaults
    of every style as they were, and the calls it makes are an initial part
    of: the resolution of the network, the names of the visual properties,
    the columns of the table, the message of mismatched lengths; none of
    them is a write. *)
Theorem builder_only_reads cy visual_prop table_column mapping_type cols props network :
  let cy' :=
    snd (map_visual_property visual_prop table_column mapping_type cols props network cy) in
  same_schema cy cy'
  ∧ style_mappings cy' = style_mappings cy
  ∧ style_defaults cy' = style_defaults cy
  ∧ ∃ new,
      calls cy' = (calls cy ++ new)%list
      ∧ new `prefix_of` (builder_reads cy visual_prop network ++ [StderrWrite mismatch_msg])%list
      ∧ List.filter is_write new = [].
Proof.
  intros cy'. subst cy'.
  destruct (known_property_dec cy visual_prop) as [Hknown | Hunknown].
  - destruct (declared_type cy visual_prop table_column network) as [ty |] eqn:Hty.
    + destruct (cargo_state cy visual_prop table_column mapping_type cols props network ty
                  Hknown Hty) as [-> | ->].
      * repeat split; try done.
        exists (builder_reads cy visual_prop network).
        split; [done |]. split; [by apply prefix_app_r | done].
      * repeat split; try done.
        exists (builder_reads cy visual_prop network ++ [StderrWrite mismatch_msg])%list.
        split; [by calls_norm |]. split; [done | done].
    + rewrite map_visual_property_unknown_column by done.
      repeat split; try done.
      exists (builder_reads cy visual_prop network).
      split; [done |]. split; [by apply prefix_app_r | done].
  - rewrite map_visual_property_unknown_property by done.
    repeat split; try done.
    exists [GetNetworkSuid network; GetVisualPropertyNames].
    split; [done |]. split; [| done].
    by exists [CyrestGet (columns_url (network_suid cy network)
                            (table_of (normalize_property visual_prop)));
               StderrWrite mismatch_msg].
Qed.

(** X4: a passthrough build does not look at the two lists of values: with a
    valid property and column it returns the document without cargo
    whatever the lists are, also when they are [None] or do not match in
    length, after the three reads of the builder. *)
Theorem passthrough_ignores_values cy visual_prop table_column mapping_type
    cols props network ty :
  mapping_type = "p" ∨ mapping_type = "passthrough" →
  known_property cy visual_prop →
  declared_type cy visual_prop table_column network = Some ty →
  map_visual_property visual_prop table_column mapping_type cols props network cy
  = (Return {| mappingType := "passthrough";
               mappingColumn := table_column;
               mappingColumnType := ty;
               visualProperty := normalize_property visual_prop;
               cargo_map := None;
               cargo_points := None |},
     after_reads cy visual_prop network).
Proof.
  intros Hkind Hknown Hty.
  rewrite (map_visual_property_validated _ _ _ _ _ _ _ ty Hknown Hty).
  unfold header. by rewrite (kind_passthrough _ Hkind).
Qed.

(** X5: a discrete or continuous build in which one of the two lists of
    values is [None] raises [TypeError], once the property and the column
    have passed the validation; no document is returned. *)
Theorem missing_values_type_error cy visual_prop table_column mapping_type
    cols props network :
  mapping_type ∈ ["c"; "continuous"; "d"; "discrete"] →
  cols = None ∨ props = None →
  known_property cy visual_prop →
  is_Some (declared_type cy visual_prop table_column network) →
  map_visual_property visual_prop table_column mapping_type cols props network cy
  = (Raise TypeError, after_reads cy visual_prop network).
Proof.
  intros Hkind Hnone Hknown [ty Hty].
  rewrite (map_visual_property_validated _ _ _ _ _ _ _ ty Hknown Hty).
  rewrite !elem_of_cons, elem_of_nil in Hkind.
  destruct Hkind as [-> | [-> | [-> | [-> | []]]]]; simpl;
    unfold bind, continuous_points, discrete_map, raise;
    destruct cols as [table_column_values |], props as [visual_prop_values |];
    destruct Hnone as [H | H]; try discriminate H; done.
Qed.

(** X20: a continuous build with both lists given returns a document
    exactly when the property and the column pass the validation and the
    lists match: as many property values as column values, or two more and
    at least one column value.  In every other case it raises. *)
Theorem continuous_returns_iff cy visual_prop table_column mapping_type
    (table_column_values : list K) (visual_prop_values : list V) network :
  mapping_type = "c" ∨ mapping_type = "continuous" →
  (∃ doc,
     fst (map_visual_property visual_prop table_column mapping_type
            (Some table_column_values) (Some visual_prop_values) network cy)
     = Return doc)
  ↔ known_property cy visual_prop
    ∧ is_Some (declared_type cy visual_prop table_column network)
    ∧ (length visual_prop_values = length table_column_values
       ∨ (length visual_prop_values = (length table_column_values + 2)%nat
          ∧ table_column_values ≠ [])).
Proof.
  intros Hkind.
  destruct (known_property_dec cy visual_prop) as [Hknown | Hunknown].
  2: { rewrite map_visual_property_unknown_property by done.
       split; [by intros [doc Hdoc] | by intros [? _]]. }
  destruct (declared_type cy visual_prop table_column network) as [ty |] eqn:Hty.
  2: { rewrite map_visual_property_unknown_column by done.
       split; [by intros [doc Hdoc] | by intros (_ & [? ?] & _)]. }
  rewrite (map_visual_property_validated _ _ _ _ _ _ _ ty Hknown Hty).
  unfold header. rewrite (kind_continuous _ Hkind). simpl.
  unfold continuous_points, bind, Py.len.
  destruct (Z.eqb_spec (Z.of_nat (length visual_prop_values)
                        - Z.of_nat (length table_column_values)) 2) as [H2 | H2].
  - assert (Hlen : length visual_prop_values = (length table_column_values + 2)%nat) by lia.
    destruct table_column_values as [| col_val rest].
    + rewrite points_with_extremes_empty by done. simpl.
      split; [by intros [doc Hdoc] |].
      intros (_ & _ & [Heq | [_ Hne]]); [simpl in *; lia | done].
    + destruct (points_with_extremes_spec (col_val :: rest) visual_prop_values)
        as (points & ? & ? & -> & _); [done | done |].
      simpl. split; [| by eexists].
      intros _. split; [done |]. split; [by eexists |]. by right.
  - destruct (Z.eqb_spec (Z.of_nat (length visual_prop_values)
                          - Z.of_nat (length table_column_values)) 0) as [H0 | H0].
    + simpl. split; [| by eexists].
      intros _. split; [done |]. split; [by eexists |]. left. lia.
    + simpl. split; [by intros [doc Hdoc] |].
      intros (_ & _ & [Heq | [Heq _]]); lia.
Qed.

End BuilderFurther.

(** ** Further properties: reading, applying and deleting mappings *)

Section ApplierFurther.
Context {K V : Type}.
Implicit Types (cy : Cytoscape K V) (mapping : Mapping K V) (res : list (Mapping K V)).

Lemma find_property_None res (visual_prop : string) :
  visual_prop ∉ (visualProperty <$> res) →
  List.find (fun prop => String.eqb (visualProperty prop) visual_prop) res = None.
Proof.
  induction res as [| m res IH]; simpl; [done |].
  rewrite not_elem_of_cons. intros [Hne Hnot].
  destruct (String.eqb_spec (visualProperty m) visual_prop) as [Heq | _]; [| by apply IH].
  by destruct Hne.
Qed.

Lemma find_property_Some res (visual_prop : string) :
  visual_prop ∈ (visualProperty <$> res) →
  ∃ doc before after,
    List.find (fun prop => String.eqb (visualProperty prop) visual_prop) res = Some doc
    ∧ visualProperty doc = visual_prop
    ∧ res = (before ++ doc :: after)%list
    ∧ visual_prop ∉ (visualProperty <$> before).
Proof.
  induction res as [| m res IH]; simpl.
  - intros H. by apply elem_of_nil in H.
  - intros Hin.
    destruct (String.eqb_spec (visualProperty m) visual_prop) as [Heq | Hne].
    + exists m, [], res. repeat split; try done. apply not_elem_of_nil.
    + apply elem_of_cons in Hin as [Heq | Hin]; [by destruct Hne |].
      destruct (IH Hin) as (doc & before & after & Hfind & Hvp & -> & Hbefore).
      exists doc, (m :: before), after. repeat split; try done.
      simpl. rewrite not_elem_of_cons. split; [| done]. by intros ->.
Qed.

Lemma find_property_app res1 res2 (visual_prop : string) :
  visual_prop ∉ (visualProperty <$> res1) →
  List.find (fun prop => String.eqb (visualProperty prop) visual_prop) (res1 ++ res2)
  = List.find (fun prop => String.eqb (visualProperty prop) visual_prop) res2.
Proof.
  induction res1 as [| m res1 IH]; simpl; [done |].
  rewrite not_elem_of_cons. intros [Hne Hnot].
  destruct (String.eqb_spec (visualProperty m) visual_prop) as [Heq | _]; [| by apply IH].
  by destruct Hne.
Qed.

(** The documents that a PUT or a DELETE of a property keeps do not carry
    the property. *)
Lemma kept_without_property res (visual_prop : string) :
  visual_prop
  ∉ (visualProperty <$> filter (fun m => has_property visual_prop m = false) res).
Proof.
  intros Hin. apply list_elem_of_fmap in Hin as (m & -> & Hm).
  apply list_elem_of_filter in Hm as [Hhas _].
  unfold has_property in Hhas. by rewrite String.eqb_refl in Hhas.
Qed.

Lemma kept_sublist res (visual_prop : string) :
  (visualProperty <$> filter (fun m => has_property visual_prop m = false) res)
  `sublist_of` (visualProperty <$> res).
Proof. apply fmap_sublist, sublist_filter. Qed.

Lemma filter_every {A : Type} (P : A → Prop) `{!∀ x, Decision (P x)} (l : list A) :
  Forall P l → filter P l = l.
Proof.
  induction 1 as [| x l Hx _ IH]; [done |].
  rewrite filter_cons_True by done. by rewrite IH.
Qed.

Lemma filter_none {A : Type} (P : A → Prop) `{!∀ x, Decision (P x)} (l : list A) :
  Forall (fun x => ¬ P x) l → filter P l = [].
Proof.
  induction 1 as [| x l Hx _ IH]; [done |].
  by rewrite filter_cons_False.
Qed.

(** What [get_style_mapping] does. *)
Lemma get_style_mapping_spec cy style_name visual_prop :
  snd (get_style_mapping style_name visual_prop cy)
  = log (CyrestGet (mappings_url style_name)) cy
  ∧ (visual_prop ∉ mapped_properties cy style_name →
     fst (get_style_mapping style_name visual_prop cy)
     = Raise (CyError (not_mapped_msg visual_prop style_name)))
  ∧ (visual_prop ∈ mapped_properties cy style_name →
     ∃ doc before after,
       fst (get_style_mapping style_name visual_prop cy) = Return doc
       ∧ visualProperty doc = visual_prop
       ∧ style_mappings cy style_name = (before ++ doc :: after)%list
       ∧ visual_prop ∉ (visualProperty <$> before)).
Proof.
  unfold get_style_mapping, bind, cyrest_get_mappings, mapped_properties. simpl.
  split; [| split].
  - by destruct (List.find _ _).
  - intros Hnot. by rewrite find_property_None.
  - intros Hin.
    destruct (find_property_Some _ _ Hin) as (doc & before & after & Hfind & Hrest).
    exists doc, before, after. by rewrite Hfind.
Qed.

(** X6: [get_style_mapping] reads the mappings of the style and does nothing
    else.  It returns the first document of the style that carries the
    property, and raises [CyError] when no document carries it. *)
Theorem get_style_mapping_first cy style_name visual_prop :
  snd (get_style_mapping style_name visual_prop cy)
  = log (CyrestGet (mappings_url style_name)) cy
  ∧ (visual_prop ∉ mapped_properties cy style_name →
     fst (get_style_mapping style_name visual_prop cy)
     = Raise (CyError (not_mapped_msg visual_prop style_name)))
  ∧ (visual_prop ∈ mapped_properties cy style_name →
     ∃ doc before after,
       fst (get_style_mapping style_name visual_prop cy) = Return doc
       ∧ visualProperty doc = visual_prop
       ∧ style_mappings cy style_name = (before ++ doc :: after)%list
       ∧ visual_prop ∉ (visualProperty <$> before)).
Proof. apply get_style_mapping_spec. Qed.

(** The mappings of a style when a document has been applied to it. *)
Lemma update_style_mapping_mappings cy style_name mapping :
  ∃ kept,
    style_mappings (snd (update_style_mapping style_name mapping cy)) style_name
    = (kept ++ [mapping])%list
    ∧ (visualProperty mapping ∉ (visualProperty <$> kept))
    ∧ ((visualProperty <$> kept) `sublist_of` mapped_properties cy style_name)
    ∧ ∀ other, other ≠ style_name →
        style_mappings (snd (update_style_mapping style_name mapping cy)) other
        = style_mappings cy other.
Proof.
  unfold update_style_mapping, bind, cyrest_get_mappings, mapped_properties. simpl.
  destruct (Py.contains _ _) eqn:E; simpl; rewrite String.eqb_refl.
  - eexists. split; [reflexivity |]. split; [apply kept_without_property |].
    split; [apply kept_sublist |].
    intros other Hne. by apply String.eqb_neq in Hne as ->.
  - apply contains_false in E.
    eexists. split; [reflexivity |]. split; [exact E |]. split; [done |].
    intros other Hne. by apply String.eqb_neq in Hne as ->.
Qed.

(** X7: a document that has been applied to a style is what
    [get_style_mapping] returns for its property right afterwards, whether
    the property was mapped before or not, and it is then the only document
    of the style with that property. *)
Theorem apply_then_get cy style_name mapping :
  let cy' := snd (update_style_mapping style_name mapping cy) in
  fst (get_style_mapping style_name (visualProperty mapping) cy') = Return mapping
  ∧ filter (fun m => visualProperty m = visualProperty mapping) (style_mappings cy' style_name)
    = [mapping].
Proof.
  intros cy'. subst cy'.
  destruct (update_style_mapping_mappings cy style_name mapping)
    as (kept & Hmaps & Hnot & _).
  split.
  - unfold get_style_mapping, bind, cyrest_get_mappings. simpl fst. simpl snd.
    cbv beta iota. rewrite Hmaps, find_property_app by done.
    simpl. by rewrite String.eqb_refl.
  - rewrite Hmaps, filter_app, filter_cons_True, filter_nil by done.
    rewrite filter_none; [done |].
    apply Forall_forall. intros m Hm Heq. apply Hnot. rewrite <- Heq.
    by apply list_elem_of_fmap_2.
Qed.

(** X8: applying a document keeps the invariant that a style holds at most
    one document per visual property, for the style it is applied to and
    for every other style, because the property is looked up before
    choosing between PUT and POST. *)
Theorem apply_keeps_one_per_property cy style_name mapping other :
  one_per_property cy other →
  one_per_property (snd (update_style_mapping style_name mapping cy)) other.
Proof.
  unfold one_per_property, mapped_properties. intros Hnodup.
  destruct (update_style_mapping_mappings cy style_name mapping)
    as (kept & Hmaps & Hnot & Hsub & Hothers).
  destruct (decide (other = style_name)) as [-> | Hne].
  - rewrite Hmaps, fmap_app. simpl. apply NoDup_app. split; [| split].
    + by eapply sublist_NoDup.
    + intros vp Hvp Hin. apply list_elem_of_singleton in Hin as ->. by apply Hnot.
    + apply NoDup_singleton.
  - by rewrite Hothers.
Qed.

(** What deleting a mapped property does. *)
Lemma delete_present_spec cy style_name visual_prop :
  visual_prop ∈ mapped_properties cy style_name →
  ∃ cy1,
    delete_style_mapping style_name visual_prop cy = (Return (Some EmptyString), cy1)
    ∧ calls cy1 = (calls cy ++ [CyrestGet (mappings_url style_name);
                                CyrestDelete (mapping_url style_name visual_prop)])%list
    ∧ (visual_prop ∉ mapped_properties cy1 style_name)
    ∧ (∀ m, applied cy style_name m → visualProperty m ≠ visual_prop →
         applied cy1 style_name m)
    ∧ fst (delete_style_mapping style_name visual_prop cy1) = Return None.
Proof.
  intros Hin. apply contains_elem_of in Hin.
  unfold delete_style_mapping at 1, bind, cyrest_get_mappings, mapped_properties. simpl.
  unfold mapped_properties in Hin. rewrite Hin. simpl.
  eexists. split; [reflexivity |]. split; [by calls_norm |].
  assert (Hgone : visual_prop
            ∉ (visualProperty <$>
                 filter (fun m => has_property visual_prop m = false)
                   (style_mappings cy style_name)))
    by apply kept_without_property.
  unfold applied. simpl. rewrite String.eqb_refl.
  split; [exact Hgone |]. split.
  - intros m Hm Hne. apply list_elem_of_filter. split; [| done].
    unfold has_property. by apply String.eqb_neq.
  - unfold delete_style_mapping, bind, cyrest_get_mappings. simpl.
    rewrite String.eqb_refl.
    apply contains_false in Hgone. by rewrite Hgone.
Qed.

(** X9: deleting the mapping of a property that the style maps issues one
    DELETE to the endpoint of the property after reading the mappings, and
    returns the acknowledgement.  Afterwards the style does not map the
    property, it keeps the documents of the other properties, and deleting
    again returns [None]. *)
Theorem delete_present cy style_name visual_prop :
  visual_prop ∈ mapped_properties cy style_name →
  ∃ cy1,
    delete_style_mapping style_name visual_prop cy = (Return (Some EmptyString), cy1)
    ∧ calls cy1 = (calls cy ++ [CyrestGet (mappings_url style_name);
                                CyrestDelete (mapping_url style_name visual_prop)])%list
    ∧ (visual_prop ∉ mapped_properties cy1 style_name)
    ∧ (∀ m, applied cy style_name m → visualProperty m ≠ visual_prop →
         applied cy1 style_name m)
    ∧ fst (delete_style_mapping style_name visual_prop cy1) = Return None.
Proof. apply delete_present_spec. Qed.

(** X10: applying a document, deleting its property and reading the property
    compose as expected: the DELETE is acknowledged, and the read then
    raises [CyError] because the property is not mapped any more. *)
Theorem apply_delete_get cy style_name mapping :
  let visual_prop := visualProperty mapping in
  let cy1 := snd (update_style_mapping style_name mapping cy) in
  let cy2 := snd (delete_style_mapping style_name visual_prop cy1) in
  fst (delete_style_mapping style_name visual_prop cy1) = Return (Some EmptyString)
  ∧ fst (get_style_mapping style_name visual_prop cy2)
    = Raise (CyError (not_mapped_msg visual_prop style_name)).
Proof.
  intros visual_prop cy1 cy2.
  assert (Hin : visual_prop ∈ mapped_properties cy1 style_name).
  { unfold mapped_properties, cy1.
    destruct (update_style_mapping_mappings cy style_name mapping) as (kept & -> & _).
    rewrite fmap_app. apply elem_of_app. right. simpl. apply elem_of_cons. by left. }
  destruct (delete_present_spec cy1 style_name visual_prop Hin)
    as (cy2' & Hdel & _ & Hgone & _).
  subst cy2. rewrite Hdel. simpl. split; [done |].
  by apply get_style_mapping_spec.
Qed.

(** A name with whitespace or a lower-case letter is not a name as the
    builder writes it. *)
Lemma friendly_not_normalized (visual_prop other : string) :
  friendly visual_prop → visual_prop ≠ normalize_property other.
Proof.
  intros Hfriendly ->. unfold friendly in Hfriendly.
  apply Exists_exists in Hfriendly as (c & Hc & Hbad).
  pose proof (normalize_property_chars other) as Hchars.
  rewrite Forall_forall in Hchars. destruct (Hchars c Hc) as [Hspace Hlower].
  destruct Hbad; congruence.
Qed.

(** X11: [delete_style_mapping] and [get_style_mapping] compare the name of
    the property as it is given, without the normalization of the builder.
    In a style whose documents carry names as the builder writes them, a
    name with whitespace or a lower-case letter in it (such as
    [node label]) matches no document: the deletion returns [None] and
    deletes nothing, and the read raises [CyError]. *)
Theorem friendly_name_matches_nothing cy style_name visual_prop :
  builder_named cy style_name →
  friendly visual_prop →
  delete_style_mapping style_name visual_prop cy
  = (Return None, log (CyrestGet (mappings_url style_name)) cy)
  ∧ fst (get_style_mapping style_name visual_prop cy)
    = Raise (CyError (not_mapped_msg visual_prop style_name)).
Proof.
  intros Hnamed Hfriendly.
  assert (Hnot : visual_prop ∉ mapped_properties cy style_name).
  { unfold mapped_properties. intros Hin.
    apply list_elem_of_fmap in Hin as (m & Heq & Hm).
    unfold builder_named in Hnamed. rewrite Forall_forall in Hnamed.
    destruct (Hnamed m Hm) as (other & Hother).
    apply (friendly_not_normalized visual_prop other Hfriendly). congruence. }
  split; [| by apply get_style_mapping_spec].
  apply contains_false in Hnot. unfold mapped_properties in Hnot.
  unfold delete_style_mapping, bind, cyrest_get_mappings. simpl. by rewrite Hnot.
Qed.

(** X21: applying a document is create-or-update.  Applied a second time
    right after the first, the same document is written with a PUT to the
    endpoint of its property, and the mappings of the style are left as the
    first application made them. *)
Theorem apply_twice cy style_name mapping :
  let cy1 := snd (update_style_mapping style_name mapping cy) in
  let cy2 := snd (update_style_mapping style_name mapping cy1) in
  calls cy2
  = (calls cy1 ++ [CyrestGet (mappings_url style_name);
                   CyrestPut (mapping_url style_name (visualProperty mapping)) [mapping]])%list
  ∧ style_mappings cy2 style_name = style_mappings cy1 style_name.
Proof.
  intros cy1 cy2.
  destruct (update_style_mapping_mappings cy style_name mapping)
    as (kept & Hmaps & Hnot & _).
  fold cy1 in Hmaps.
  assert (Hin : Py.contains (visualProperty <$> style_mappings cy1 style_name)
                  (visualProperty mapping) = true).
  { apply contains_elem_of. rewrite Hmaps, fmap_app.
    apply elem_of_app. right. simpl. apply elem_of_cons. by left. }
  subst cy2. unfold update_style_mapping at 1 2, bind, cyrest_get_mappings. simpl.
  rewrite Hin. simpl. rewrite String.eqb_refl.
  split; [by calls_norm |].
  rewrite Hmaps, filter_app.
  rewrite (filter_every _ kept).
  - rewrite filter_cons_False, filter_nil, app_nil_r; [done |].
    unfold has_property. by rewrite String.eqb_refl.
  - apply Forall_forall. intros m Hm.
    unfold has_property. apply String.eqb_neq. intros Heq. apply Hnot.
    rewrite <- Heq. by apply list_elem_of_fmap_2.
Qed.

End ApplierFurther.

(** ** Further properties: the dispatcher and the functions of a property *)

Section DispatcherFurther.
Context {K : Type}.
Implicit Types (cy : Cytoscape K string).

Lemma names_disjoint (mapping_type : string) :
  (mapping_type ∈ continuous_names →
   Py.contains continuous_names mapping_type = true)
  ∧ (mapping_type ∈ discrete_names →
     Py.contains continuous_names mapping_type = false
     ∧ Py.contains discrete_names mapping_type = true)
  ∧ (mapping_type ∈ passthrough_names →
     Py.contains continuous_names mapping_type = false
     ∧ Py.contains discrete_names mapping_type = false
     ∧ Py.contains passthrough_names mapping_type = true).
Proof.
  unfold continuous_names, discrete_names, passthrough_names.
  rewrite !elem_of_cons, !elem_of_nil. split; [| split].
  - by intros [-> | [-> | [-> | []]]].
  - by intros [-> | [-> | [-> | []]]].
  - by intros [-> | [-> | []]].
Qed.

Lemma dispatch_unrecognized_spec {R : Type} (str : R → string)
    (visual_prop_name table_column : string) (table_column_values : option (list K))
    (range_map : option (list R)) (mapping_type style_name : string)
    (network : option string) (supported_mappings : list string) cy :
  mapping_type ∉ (continuous_names ++ discrete_names ++ passthrough_names)%list →
  _update_style_mapping str visual_prop_name table_column table_column_values range_map
    mapping_type style_name network supported_mappings cy
  = (Return None, log (StderrWrite "mapping_type not recognized.") cy).
Proof.
  rewrite !not_elem_of_app. intros (Hc & Hd & Hp).
  apply contains_false in Hc, Hd, Hp.
  unfold continuous_names in Hc. unfold discrete_names in Hd.
  unfold passthrough_names in Hp.
  unfold _update_style_mapping. by rewrite Hc, Hd, Hp.
Qed.

(** X12: a mapping type that is none of the eight texts of the dispatcher
    makes it write [mapping_type not recognized.] on [stderr] and return
    [None]: the builder is not invoked, nothing is read from or written to
    Cytoscape, and no error is raised. *)
Theorem dispatch_unrecognized {R : Type} (str : R → string)
    (visual_prop_name table_column : string) (table_column_values : option (list K))
    (range_map : option (list R)) (mapping_type style_name : string)
    (network : option string) (supported_mappings : list string) cy :
  mapping_type ∉ (continuous_names ++ discrete_names ++ passthrough_names)%list →
  _update_style_mapping str visual_prop_name table_column table_column_values range_map
    mapping_type style_name network supported_mappings cy
  = (Return None, log (StderrWrite "mapping_type not recognized.") cy).
Proof. apply dispatch_unrecognized_spec. Qed.

(** X13: a mapping of a kind that is not among the supported mappings is
    refused with [CyError] before anything is read or written: the state of
    Cytoscape and the record of calls are as they were. *)
Theorem dispatch_unsupported {R : Type} (str : R → string)
    (visual_prop_name table_column : string) (table_column_values : option (list K))
    (range_map : option (list R)) (mapping_type style_name : string)
    (network : option string) (supported_mappings : list string) cy :
  let run :=
    _update_style_mapping str visual_prop_name table_column table_column_values range_map
      mapping_type style_name network supported_mappings cy in
  (mapping_type ∈ continuous_names → "c" ∉ supported_mappings →
   run = (Raise (CyError ("Continuous mapping of " ++ visual_prop_name
                            ++ " values is not supported.")), cy))
  ∧ (mapping_type ∈ discrete_names → "d" ∉ supported_mappings →
     run = (Raise (CyError ("Discrete mapping of " ++ visual_prop_name
                              ++ " values is not supported.")), cy))
  ∧ (mapping_type ∈ passthrough_names → "p" ∉ supported_mappings →
     run = (Raise (CyError ("Passthrough mapping of " ++ visual_prop_name
                              ++ " values is not supported.")), cy)).
Proof.
  intros run. subst run.
  destruct (names_disjoint mapping_type) as (Hc & Hd & Hp).
  unfold continuous_names, discrete_names, passthrough_names in *.
  unfold _update_style_mapping. split; [| split].
  - intros Hin Hnot. apply contains_false in Hnot. by rewrite (Hc Hin), Hnot.
  - intros Hin Hnot. apply contains_false in Hnot.
    destruct (Hd Hin) as [-> ->]. by rewrite Hnot.
  - intros Hin Hnot. apply contains_false in Hnot.
    destruct (Hp Hin) as (-> & -> & ->). by rewrite Hnot.
Qed.

(** What a build followed by its application does when the build returns. *)
Lemma build_and_apply_spec (visual_prop_name table_column kind : string)
    (cols : option (list K)) (props : option (list string)) style_name network cy doc :
  map_visual_property visual_prop_name table_column kind cols props network cy
  = (Return doc, after_reads cy visual_prop_name network) →
  ∃ write cy',
    (let! mvp := map_visual_property visual_prop_name table_column kind cols props network in
     let! res := update_style_mapping style_name mvp in
     ret (Some res)) cy = (Return (Some EmptyString), cy')
    ∧ calls cy' = (calls cy ++ builder_reads cy visual_prop_name network
                     ++ [CyrestGet (mappings_url style_name); write])%list
    ∧ (visualProperty doc ∈ mapped_properties cy style_name →
       write = CyrestPut (mapping_url style_name (visualProperty doc)) [doc])
    ∧ (visualProperty doc ∉ mapped_properties cy style_name →
       write = CyrestPost (mappings_url style_name) [doc])
    ∧ applied cy' style_name doc
    ∧ style_defaults cy' = style_defaults cy.
Proof.
  intros Hbuild. unfold bind at 1. rewrite Hbuild.
  unfold update_style_mapping, bind, cyrest_get_mappings, ret, applied, mapped_properties.
  simpl.
  destruct (Py.contains (visualProperty <$> style_mappings cy style_name)
              (visualProperty doc)) eqn:E.
  - apply contains_elem_of in E.
    eexists _, _. split; [reflexivity |]. simpl. rewrite String.eqb_refl.
    split; [by calls_norm |]. split; [done |]. split; [by intros Hnot |].
    split; [| done]. apply elem_of_app. right. apply elem_of_cons. by left.
  - apply contains_false in E.
    eexists _, _. split; [reflexivity |]. simpl. rewrite String.eqb_refl.
    split; [by calls_norm |]. split; [by intros Hin |]. split; [done |].
    split; [| done]. apply elem_of_app. right. apply elem_of_cons. by left.
Qed.

(** The dispatcher on a discrete mapping with both lists given. *)
Lemma dispatch_discrete_spec {R : Type} (str : R → string)
    (visual_prop_name table_column : string) (table_column_values : list K)
    (range_map : list R) (mapping_type style_name : string)
    (network : option string) (supported_mappings : list string) cy ty :
  mapping_type ∈ discrete_names →
  "d" ∈ supported_mappings →
  known_property cy visual_prop_name →
  declared_type cy visual_prop_name table_column network = Some ty →
  let doc :=
    {| mappingType := "discrete";
       mappingColumn := table_column;
       mappingColumnType := ty;
       visualProperty := normalize_property visual_prop_name;
       cargo_map := Some (zip_with entry table_column_values (List.map str range_map));
       cargo_points := None |} in
  ∃ write cy',
    _update_style_mapping str visual_prop_name table_column (Some table_column_values)
      (Some range_map) mapping_type style_name network supported_mappings cy
    = (Return (Some EmptyString), cy')
    ∧ calls cy' = (calls cy ++ builder_reads cy visual_prop_name network
                     ++ [CyrestGet (mappings_url style_name); write])%list
    ∧ (visualProperty doc ∈ mapped_properties cy style_name →
       write = CyrestPut (mapping_url style_name (visualProperty doc)) [doc])
    ∧ (visualProperty doc ∉ mapped_properties cy style_name →
       write = CyrestPost (mappings_url style_name) [doc])
    ∧ applied cy' style_name doc
    ∧ style_defaults cy' = style_defaults cy.
Proof.
  intros Hkind Hsup Hknown Hty doc.
  destruct (names_disjoint mapping_type) as (_ & Hd & _).
  destruct (Hd Hkind) as [Hc Hd'].
  unfold continuous_names, discrete_names in *. apply contains_elem_of in Hsup.
  unfold _update_style_mapping. rewrite Hc, Hd', Hsup.
  apply build_and_apply_spec.
  by rewrite (map_visual_property_validated _ _ _ _ _ _ _ ty Hknown Hty).
Qed.

(** The dispatcher on a passthrough mapping. *)
Lemma dispatch_passthrough_spec {R : Type} (str : R → string)
    (visual_prop_name table_column : string) (table_column_values : option (list K))
    (range_map : option (list R)) (mapping_type style_name : string)
    (network : option string) (supported_mappings : list string) cy ty :
  mapping_type ∈ passthrough_names →
  "p" ∈ supported_mappings →
  known_property cy visual_prop_name →
  declared_type cy visual_prop_name table_column network = Some ty →
  let doc :=
    {| mappingType := "passthrough";
       mappingColumn := table_column;
       mappingColumnType := ty;
       visualProperty := normalize_property visual_prop_name;
       cargo_map := None;
       cargo_points := None |} in
  ∃ write cy',
    _update_style_mapping str visual_prop_name table_column table_column_values
      range_map mapping_type style_name network supported_mappings cy
    = (Return (Some EmptyString), cy')
    ∧ calls cy' = (calls cy ++ builder_reads cy visual_prop_name network
                     ++ [CyrestGet (mappings_url style_name); write])%list
    ∧ (visualProperty doc ∈ mapped_properties cy style_name →
       write = CyrestPut (mapping_url style_name (visualProperty doc)) [doc])
    ∧ (visualProperty doc ∉ mapped_properties cy style_name →
       write = CyrestPost (mappings_url style_name) [doc])
    ∧ applied cy' style_name doc
    ∧ style_defaults cy' = style_defaults cy.
Proof.
  intros Hkind Hsup Hknown Hty doc.
  destruct (names_disjoint mapping_type) as (_ & _ & Hp).
  destruct (Hp Hkind) as (Hc & Hd & Hp').
  unfold continuous_names, discrete_names, passthrough_names in *.
  apply contains_elem_of in Hsup.
  unfold _update_style_mapping. rewrite Hc, Hd, Hp', Hsup.
  apply build_and_apply_spec.
  by rewrite (map_visual_property_validated _ _ _ _ _ _ _ ty Hknown Hty).
Qed.

(** The dispatcher on a continuous or discrete mapping without one of the
    lists. *)
Lemma dispatch_missing_values_spec {R : Type} (str : R → string)
    (visual_prop_name table_column : string) (table_column_values : option (list K))
    (range_map : option (list R)) (mapping_type style_name : string)
    (network : option string) cy :
  mapping_type ∈ (continuous_names ++ discrete_names)%list →
  table_column_values = None ∨ range_map = None →
  known_property cy visual_prop_name →
  is_Some (declared_type cy visual_prop_name table_column network) →
  _update_style_mapping str visual_prop_name table_column table_column_values
    range_map mapping_type style_name network all_mappings cy
  = (Raise TypeError, after_reads cy visual_prop_name network).
Proof.
  intros Hkind Hnone Hknown [ty Hty].
  destruct (names_disjoint mapping_type) as (Hc & Hd & _).
  apply elem_of_app in Hkind as [Hkind | Hkind].
  - specialize (Hc Hkind). unfold continuous_names in Hc.
    unfold _update_style_mapping. rewrite Hc.
    change (Py.contains all_mappings "c") with true. cbv iota.
    unfold bind at 1.
    rewrite (map_visual_property_validated _ _ _ _ _ _ _ ty Hknown Hty). simpl.
    unfold bind, continuous_points, raise.
    destruct table_column_values, range_map; destruct Hnone as [H | H];
      try discriminate H; done.
  - destruct (Hd Hkind) as [Hc' Hd']. unfold continuous_names, discrete_names in *.
    unfold _update_style_mapping. rewrite Hc', Hd'.
    change (Py.contains all_mappings "d") with true. cbv iota.
    unfold bind at 1.
    rewrite (map_visual_property_validated _ _ _ _ _ _ _ ty Hknown Hty). simpl.
    unfold bind, discrete_map, raise.
    destruct table_column_values, range_map; destruct Hnone as [H | H];
      try discriminate H; done.
Qed.

End DispatcherFurther.

Section FacadesFurther.
Context {K : Type}.
Implicit Types (cy : Cytoscape K string) (opacities : option (list Z)).

Lemma table_column_exists_missing cy table_column network :
  ¬ node_column cy table_column network →
  table_column_exists table_column "node" network cy
  = (Return false, log (TableColumnExists table_column "node" network) cy).
Proof.
  intros Hcol. apply contains_false in Hcol. unfold table_column_exists.
  change ("default" ++ "node") with "defaultnode". by rewrite Hcol.
Qed.

(** X14: each of the three opacity functions and the font face function
    starts with the check of the column: when the column is not in the node
    table it raises [CyError] at once, whatever the other arguments are; no
    default is pushed, the builder is not invoked and nothing is written. *)
Theorem column_missing_raises cy table_column table_column_values opacities fonts
    mapping_type default_opacity default_font style_name network :
  ¬ node_column cy table_column network →
  let refused :=
    (@Raise (option string) (CyError column_missing_msg),
     log (TableColumnExists table_column "node" network) cy) in
  set_node_border_opacity_mapping table_column table_column_values opacities
    mapping_type default_opacity style_name network cy = refused
  ∧ set_node_combo_opacity_mapping table_column table_column_values opacities
      mapping_type default_opacity style_name network cy = refused
  ∧ set_node_fill_opacity_mapping table_column table_column_values opacities
      mapping_type default_opacity style_name network cy = refused
  ∧ set_node_font_face_mapping table_column table_column_values fonts
      mapping_type default_font style_name network cy = refused.
Proof.
  intros Hcol refused. subst refused.
  repeat split;
    unfold set_node_border_opacity_mapping, set_node_combo_opacity_mapping,
      set_node_fill_opacity_mapping, set_node_font_face_mapping;
    unfold bind at 1; by rewrite (table_column_exists_missing _ _ _ Hcol).
Qed.

(** The font face function, when the column is found. *)
Lemma font_face_checks_pass cy table_column table_column_values fonts
    mapping_type default_font style_name network :
  node_column cy table_column network →
  set_node_font_face_mapping table_column table_column_values fonts
    mapping_type default_font style_name network cy
  = _update_style_mapping (fun font : string => font) "NODE_LABEL_FONT_FACE" table_column
      table_column_values fonts mapping_type style_name network ["d"; "p"]
      (checked "NODE_LABEL_FONT_FACE" cy table_column network default_font style_name).
Proof.
  intros Hcol. unfold set_node_font_face_mapping.
  unfold bind at 1. rewrite (table_column_exists_node _ _ _ Hcol).
  cbv beta iota delta [negb]. unfold checked. by destruct default_font.
Qed.

(** The functions of the border and of the fill opacity, when their checks
    pass. *)
Lemma single_opacity_checks_pass cy table_column table_column_values opacities
    mapping_type default_opacity style_name network :
  node_column cy table_column network →
  Forall in_range (default [] opacities) →
  (∀ d, default_opacity = Some d → in_range d) →
  set_node_border_opacity_mapping table_column table_column_values opacities
    mapping_type default_opacity style_name network cy
  = _update_style_mapping Text.str_int "NODE_BORDER_TRANSPARENCY" table_column
      table_column_values opacities mapping_type style_name network all_mappings
      (checked "NODE_BORDER_TRANSPARENCY" cy table_column network
         (opacity_text default_opacity) style_name)
  ∧ set_node_fill_opacity_mapping table_column table_column_values opacities
      mapping_type default_opacity style_name network cy
    = _update_style_mapping Text.str_int "NODE_TRANSPARENCY" table_column
        table_column_values opacities mapping_type style_name network all_mappings
        (checked "NODE_TRANSPARENCY" cy table_column network
           (opacity_text default_opacity) style_name).
Proof.
  intros Hcol Hops Hdef. apply none_out_of_range in Hops.
  split;
    unfold set_node_border_opacity_mapping, set_node_fill_opacity_mapping;
    unfold bind at 1; rewrite (table_column_exists_node _ _ _ Hcol);
    cbv beta iota delta [negb]; rewrite Hops; unfold checked, opacity_text;
    destruct default_opacity as [d |]; try done;
    (assert (Hd : out_of_range d = false) by (apply out_of_range_false; by apply Hdef));
    rewrite Hd; reflexivity.
Qed.

Lemma checked_calls (visual_prop_name : string) cy table_column network value style_name :
  calls (checked visual_prop_name cy table_column network value style_name)
  = (calls cy ++ [TableColumnExists table_column "node" network]
       ++ pushed_default visual_prop_name value style_name)%list.
Proof. unfold checked, pushed_default. destruct value; by calls_norm. Qed.

Lemma checked_schema (visual_prop_name : string) cy table_column network value style_name :
  same_schema cy (checked visual_prop_name cy table_column network value style_name)
  ∧ style_mappings (checked visual_prop_name cy table_column network value style_name)
    = style_mappings cy.
Proof. unfold checked. by destruct value. Qed.

(** X15: the font face function refuses a continuous mapping with [CyError]
    without invoking the builder; but it has then already pushed the default
    font, when one is given: the refusal comes after the write of the
    default. *)
Theorem font_face_refuses_continuous cy table_column table_column_values fonts
    mapping_type default_font style_name network :
  node_column cy table_column network →
  mapping_type ∈ continuous_names →
  ∃ cy',
    set_node_font_face_mapping table_column table_column_values fonts
      mapping_type default_font style_name network cy
    = (Raise (CyError "Continuous mapping of NODE_LABEL_FONT_FACE values is not supported."),
       cy')
    ∧ calls cy' = (calls cy ++ [TableColumnExists table_column "node" network]
                     ++ pushed_default "NODE_LABEL_FONT_FACE" default_font style_name)%list
    ∧ (∀ font, default_font = Some font →
         style_defaults cy' style_name
         = ("NODE_LABEL_FONT_FACE", font) :: style_defaults cy style_name)
    ∧ style_mappings cy' = style_mappings cy.
Proof.
  intros Hcol Hkind. rewrite font_face_checks_pass by done.
  destruct (names_disjoint mapping_type) as (Hc & _).
  unfold continuous_names in *. unfold _update_style_mapping.
  rewrite (Hc Hkind). simpl Py.contains. cbv iota.
  eexists. split; [reflexivity |]. split; [apply checked_calls |].
  split; [| apply checked_schema].
  intros font ->. unfold checked. simpl. by rewrite String.eqb_refl.
Qed.

Lemma node_declared cy (visual_prop_name table_column : string) network :
  table_of (normalize_property visual_prop_name) = "defaultnode" →
  is_Some (declared_type cy visual_prop_name table_column network) →
  node_column cy table_column network.
Proof.
  intros Htable Hsome. unfold declared_type, backing_table in Hsome.
  rewrite Htable in Hsome. by apply column_type_is_Some.
Qed.

Lemma checked_reads (visual_prop_name visual_prop : string) cy table_column network
    value style_name :
  builder_reads (checked visual_prop_name cy table_column network value style_name)
    visual_prop network
  = builder_reads cy visual_prop network.
Proof. unfold checked. by destruct value. Qed.

Lemma checked_mapped (visual_prop_name : string) cy table_column network value style_name :
  mapped_properties (checked visual_prop_name cy table_column network value style_name)
    style_name
  = mapped_properties cy style_name.
Proof. unfold checked. by destruct value. Qed.

Lemma checked_defaults (visual_prop_name : string) cy table_column network value style_name :
  ∀ v, value = Some v →
    style_defaults (checked visual_prop_name cy table_column network value style_name)
      style_name
    = (visual_prop_name, v) :: style_defaults cy style_name.
Proof. intros v ->. unfold checked. simpl. by rewrite String.eqb_refl. Qed.

(** X16: a discrete mapping through the function of the border opacity, with
    a known property, a column of the node table and opacities in range,
    is acknowledged.  After the check of the column, the push of the
    default if one is given, and the three reads of the builder, the
    function reads the mappings of the style and writes one document: its
    mapping type is [discrete] whichever of [discrete], [d], [lookup] was
    passed, and its map pairs each column value with the decimal text of the
    opacity at the same position. *)
Theorem border_opacity_discrete cy table_column (table_column_values : list K)
    (opacities : list Z) mapping_type default_opacity style_name network ty :
  known_property cy "NODE_BORDER_TRANSPARENCY" →
  declared_type cy "NODE_BORDER_TRANSPARENCY" table_column network = Some ty →
  Forall in_range opacities →
  (∀ d, default_opacity = Some d → in_range d) →
  mapping_type ∈ discrete_names →
  let doc :=
    {| mappingType := "discrete";
       mappingColumn := table_column;
       mappingColumnType := ty;
       visualProperty := "NODE_BORDER_TRANSPARENCY";
       cargo_map := Some (zip_with entry table_column_values
                            (List.map Text.str_int opacities));
       cargo_points := None |} in
  ∃ write cy',
    set_node_border_opacity_mapping table_column (Some table_column_values)
      (Some opacities) mapping_type default_opacity style_name network cy
    = (Return (Some EmptyString), cy')
    ∧ calls cy'
      = (calls cy ++ [TableColumnExists table_column "node" network]
           ++ pushed_default "NODE_BORDER_TRANSPARENCY" (opacity_text default_opacity)
                style_name
           ++ builder_reads cy "NODE_BORDER_TRANSPARENCY" network
           ++ [CyrestGet (mappings_url style_name); write])%list
    ∧ ("NODE_BORDER_TRANSPARENCY" ∈ mapped_properties cy style_name →
       write = CyrestPut (mapping_url style_name "NODE_BORDER_TRANSPARENCY") [doc])
    ∧ ("NODE_BORDER_TRANSPARENCY" ∉ mapped_properties cy style_name →
       write = CyrestPost (mappings_url style_name) [doc])
    ∧ applied cy' style_name doc.
Proof.
  intros Hknown Hty Hops Hdef Hkind doc.
  assert (Hcol : node_column cy table_column network).
  { by apply (node_declared cy "NODE_BORDER_TRANSPARENCY"). }
  rewrite (proj1 (single_opacity_checks_pass cy table_column (Some table_column_values)
                    (Some opacities) mapping_type default_opacity style_name network
                    Hcol Hops Hdef)).
  set (cy0 := checked "NODE_BORDER_TRANSPARENCY" cy table_column network
                (opacity_text default_opacity) style_name).
  destruct (checked_schema "NODE_BORDER_TRANSPARENCY" cy table_column network
              (opacity_text default_opacity) style_name) as [Hschema Hmaps].
  fold cy0 in Hschema, Hmaps.
  destruct (dispatch_discrete_spec Text.str_int "NODE_BORDER_TRANSPARENCY" table_column
              table_column_values opacities mapping_type style_name network
              all_mappings cy0 ty)
    as (write & cy' & Hrun & Hcalls & Hput & Hpost & Happlied & _).
  - done.
  - unfold all_mappings. in_list.
  - by apply (known_property_schema cy cy0).
  - by rewrite (declared_type_schema cy cy0).
  - exists write, cy'. split; [exact Hrun |].
    unfold cy0 in Hcalls, Hput, Hpost.
    rewrite checked_calls, checked_reads in Hcalls.
    rewrite checked_mapped in Hput, Hpost.
    split; [by rewrite Hcalls, <- !app_assoc |].
    split; [exact Hput |]. split; [exact Hpost | exact Happlied].
Qed.

(** X17: a passthrough mapping through the font face function, with a known
    property and a column of the node table, is acknowledged whatever the
    column values and the fonts are, also when they are [None]: the default
    font is pushed if one is given, and the one document written has the
    mapping type [passthrough] and no cargo. *)
Theorem font_face_passthrough cy table_column table_column_values fonts
    mapping_type default_font style_name network ty :
  known_property cy "NODE_LABEL_FONT_FACE" →
  declared_type cy "NODE_LABEL_FONT_FACE" table_column network = Some ty →
  mapping_type ∈ passthrough_names →
  let doc : Mapping K string :=
    {| mappingType := "passthrough";
       mappingColumn := table_column;
       mappingColumnType := ty;
       visualProperty := "NODE_LABEL_FONT_FACE";
       cargo_map := None;
       cargo_points := None |} in
  ∃ write cy',
    set_node_font_face_mapping table_column table_column_values fonts
      mapping_type default_font style_name network cy
    = (Return (Some EmptyString), cy')
    ∧ calls cy'
      = (calls cy ++ [TableColumnExists table_column "node" network]
           ++ pushed_default "NODE_LABEL_FONT_FACE" default_font style_name
           ++ builder_reads cy "NODE_LABEL_FONT_FACE" network
           ++ [CyrestGet (mappings_url style_name); write])%list
    ∧ ("NODE_LABEL_FONT_FACE" ∈ mapped_properties cy style_name →
       write = CyrestPut (mapping_url style_name "NODE_LABEL_FONT_FACE") [doc])
    ∧ ("NODE_LABEL_FONT_FACE" ∉ mapped_properties cy style_name →
       write = CyrestPost (mappings_url style_name) [doc])
    ∧ applied cy' style_name doc
    ∧ (∀ font, default_font = Some font →
         style_defaults cy' style_name
         = ("NODE_LABEL_FONT_FACE", font) :: style_defaults cy style_name).
Proof.
  intros Hknown Hty Hkind doc.
  assert (Hcol : node_column cy table_column network).
  { by apply (node_declared cy "NODE_LABEL_FONT_FACE"). }
  rewrite font_face_checks_pass by done.
  set (cy0 := checked "NODE_LABEL_FONT_FACE" cy table_column network default_font
                style_name).
  destruct (checked_schema "NODE_LABEL_FONT_FACE" cy table_column network default_font
              style_name) as [Hschema Hmaps].
  fold cy0 in Hschema, Hmaps.
  destruct (dispatch_passthrough_spec (fun font : string => font) "NODE_LABEL_FONT_FACE"
              table_column table_column_values fonts mapping_type style_name network
              ["d"; "p"] cy0 ty)
    as (write & cy' & Hrun & Hcalls & Hput & Hpost & Happlied & Hdefaults).
  - done.
  - in_list.
  - by apply (known_property_schema cy cy0).
  - by rewrite (declared_type_schema cy cy0).
  - exists write, cy'. split; [exact Hrun |].
    unfold cy0 in Hcalls, Hput, Hpost, Hdefaults.
    rewrite checked_calls, checked_reads in Hcalls.
    rewrite checked_mapped in Hput, Hpost.
    split; [by rewrite Hcalls, <- !app_assoc |].
    split; [exact Hput |]. split; [exact Hpost |]. split; [exact Happlied |].
    intros font Hfont. rewrite Hdefaults. by apply checked_defaults.
Qed.

(** X18: the function of the fill opacity called for a continuous or
    discrete mapping without column values or without opacities (the
    defaults of these parameters) raises [TypeError] in the builder, after
    the check of the column, the push of the default if one is given, and
    the three reads of the builder; no mapping is written. *)
Theorem fill_opacity_without_values cy table_column table_column_values opacities
    mapping_type default_opacity style_name network :
  known_property cy "NODE_TRANSPARENCY" →
  is_Some (declared_type cy "NODE_TRANSPARENCY" table_column network) →
  Forall in_range (default [] opacities) →
  (∀ d, default_opacity = Some d → in_range d) →
  mapping_type ∈ (continuous_names ++ discrete_names)%list →
  table_column_values = None ∨ opacities = None →
  ∃ cy',
    set_node_fill_opacity_mapping table_column table_column_values opacities
      mapping_type default_opacity style_name network cy
    = (Raise TypeError, cy')
    ∧ calls cy'
      = (calls cy ++ [TableColumnExists table_column "node" network]
           ++ pushed_default "NODE_TRANSPARENCY" (opacity_text default_opacity) style_name
           ++ builder_reads cy "NODE_TRANSPARENCY" network)%list
    ∧ style_mappings cy' = style_mappings cy.
Proof.
  intros Hknown Hty Hops Hdef Hkind Hnone.
  assert (Hcol : node_column cy table_column network).
  { by apply (node_declared cy "NODE_TRANSPARENCY"). }
  rewrite (proj2 (single_opacity_checks_pass cy table_column table_column_values
                    opacities mapping_type default_opacity style_name network
                    Hcol Hops Hdef)).
  set (cy0 := checked "NODE_TRANSPARENCY" cy table_column network
                (opacity_text default_opacity) style_name).
  destruct (checked_schema "NODE_TRANSPARENCY" cy table_column network
              (opacity_text default_opacity) style_name) as [Hschema Hmaps].
  fold cy0 in Hschema, Hmaps.
  rewrite (dispatch_missing_values_spec Text.str_int "NODE_TRANSPARENCY" table_column
             table_column_values opacities mapping_type style_name network cy0 Hkind).
  - eexists. split; [reflexivity |]. split; [| exact Hmaps].
    unfold after_reads. simpl calls. unfold cy0.
    by rewrite checked_calls, checked_reads, <- !app_assoc.
  - destruct Hnone as [-> | ->]; [by left | by right].
  - by apply (known_property_schema cy cy0).
  - by rewrite (declared_type_schema cy cy0).
Qed.

(** X19: a [None] from the combined opacity function does not mean that
    nothing was written.  With a mapping type that the dispatcher does not
    know, a column of the node table and a default opacity in range, the
    function first pushes the default for the fill, the border and the label
    transparency, then writes the message of the dispatcher three times on
    [stderr] and returns [None]; no mapping is read or written. *)
Theorem combo_unrecognized_after_defaults cy table_column table_column_values opacities
    mapping_type (default_opacity : Z) style_name network :
  node_column cy table_column network →
  Forall in_range (default [] opacities) →
  in_range default_opacity →
  mapping_type ∉ (continuous_names ++ discrete_names ++ passthrough_names)%list →
  ∃ cy',
    set_node_combo_opacity_mapping table_column table_column_values opacities
      mapping_type (Some default_opacity) style_name network cy
    = (Return None, cy')
    ∧ calls cy'
      = (calls cy
           ++ [TableColumnExists table_column "node" network;
               SetVisualPropertyDefault "NODE_TRANSPARENCY"
                 (Text.str_int default_opacity) style_name;
               SetVisualPropertyDefault "NODE_BORDER_TRANSPARENCY"
                 (Text.str_int default_opacity) style_name;
               SetVisualPropertyDefault "NODE_LABEL_TRANSPARENCY"
                 (Text.str_int default_opacity) style_name;
               StderrWrite "mapping_type not recognized.";
               StderrWrite "mapping_type not recognized.";
               StderrWrite "mapping_type not recognized."])%list
    ∧ style_defaults cy' style_name
      = ("NODE_LABEL_TRANSPARENCY", Text.str_int default_opacity)
        :: ("NODE_BORDER_TRANSPARENCY", Text.str_int default_opacity)
        :: ("NODE_TRANSPARENCY", Text.str_int default_opacity)
        :: style_defaults cy style_name
    ∧ style_mappings cy' = style_mappings cy.
Proof.
  intros Hcol Hops Hdef Hkind.
  rewrite combo_checks_pass; [| done | done | by intros d [= <-]].
  unfold bind. rewrite !dispatch_unrecognized_spec by done.
  eexists. split; [reflexivity |]. unfold combo_checked, bind. simpl.
  rewrite !String.eqb_refl. split; [by calls_norm | done].
Qed.

End FacadesFurther.

(** ** The further properties on the sessions *)

Section FurtherOnSession.
Import Session FontSession.

Local Ltac known := vm_compute; in_list.
Local Ltac unknown := apply contains_false; vm_compute; reflexivity.
Local Ltac ranged := repeat (apply Forall_cons_2; [unfold in_range; lia |]); apply Forall_nil_2.

Lemma normalize_property_idempotent_witness :
  normalize_property "node border   color" = "NODE_BORDER_PAINT"
  ∧ normalize_property (normalize_property "node border   color") = "NODE_BORDER_PAINT".
Proof.
  destruct (normalize_property_idempotent "node border   color" eq_refl) as [_ Hsame].
  rewrite Hsame. split; reflexivity.
Defined.

Lemma passthrough_ignores_values_witness :
  fst (map_visual_property "node label" "name" "p" (Some [1; 2; 3]%Z) None None galFiltered)
  = Return label_passthrough.
Proof.
  rewrite (passthrough_ignores_values galFiltered "node label" "name" "p"
             (Some [1; 2; 3]%Z) None None "String");
    [reflexivity | by left | known | reflexivity].
Defined.

Lemma missing_values_type_error_witness :
  fst (map_visual_property "node shape" "Degree" "d" (Some [1; 2]%Z) None None galFiltered)
  = @Raise (Mapping Z string) TypeError.
Proof.
  rewrite (missing_values_type_error galFiltered "node shape" "Degree" "d"
             (Some [1; 2]%Z) None None);
    [reflexivity | in_list | by right | known | by eexists].
Defined.

Lemma apply_keeps_one_per_property_witness :
  one_per_property
    (snd (update_style_mapping "galFiltered Style" shape_by_degree galFiltered))
    "galFiltered Style".
Proof.
  apply (apply_keeps_one_per_property galFiltered "galFiltered Style" shape_by_degree).
  unfold one_per_property. vm_compute. apply NoDup_singleton.
Defined.

Lemma delete_present_witness :
  ∃ cy1,
    delete_style_mapping "galFiltered Style" "NODE_LABEL" galFiltered
    = (Return (Some EmptyString), cy1)
    ∧ style_mappings cy1 "galFiltered Style" = [].
Proof.
  destruct (delete_present galFiltered "galFiltered Style" "NODE_LABEL")
    as (cy1 & Hrun & _); [known |].
  exists cy1. split; [exact Hrun |].
  injection Hrun as <-. reflexivity.
Defined.

Lemma friendly_name_matches_nothing_witness :
  fst (delete_style_mapping "galFiltered Style" "node label" galFiltered) = Return None.
Proof.
  destruct (friendly_name_matches_nothing galFiltered "galFiltered Style" "node label")
    as [Hdelete _].
  - unfold builder_named. apply Forall_cons_2; [| apply Forall_nil_2].
    by exists "node label".
  - unfold friendly. apply Exists_cons_hd. by right.
  - by rewrite Hdelete.
Defined.

Lemma dispatch_unrecognized_witness :
  fst (_update_style_mapping Text.str_int "NODE_TRANSPARENCY" "Degree" (Some [1; 2]%Z)
         (Some [50; 100]%Z) "gradient" "galFiltered Style" None all_mappings galFiltered)
  = Return None.
Proof.
  rewrite (dispatch_unrecognized Text.str_int "NODE_TRANSPARENCY" "Degree" (Some [1; 2]%Z)
             (Some [50; 100]%Z) "gradient" "galFiltered Style" None all_mappings galFiltered);
    [reflexivity | unknown].
Defined.

Lemma dispatch_unsupported_witness :
  _update_style_mapping (fun font : string => font) "NODE_LABEL_FONT_FACE" "Degree"
    (Some [1; 2]%Z) (Some ["Arial,plain,12"; "Arial Bold,bold,12"]) "interpolate"
    "galFiltered Style" None ["d"; "p"] galFiltered
  = (Raise (CyError "Continuous mapping of NODE_LABEL_FONT_FACE values is not supported."),
     galFiltered).
Proof.
  destruct (dispatch_unsupported (fun font : string => font) "NODE_LABEL_FONT_FACE" "Degree"
              (Some [1; 2]%Z) (Some ["Arial,plain,12"; "Arial Bold,bold,12"]) "interpolate"
              "galFiltered Style" None ["d"; "p"] galFiltered) as (Hc & _).
  apply Hc; [in_list | unknown].
Defined.

Lemma column_missing_raises_witness :
  fst (set_node_font_face_mapping "Weight" (Some [1; 2]%Z) (Some ["Arial,plain,12"]) "d"
         (Some "Dialog,plain,10") "galFiltered Style" None galFiltered)
  = Raise (CyError column_missing_msg).
Proof.
  destruct (column_missing_raises galFiltered "Weight" (Some [1; 2]%Z) (Some [50]%Z)
              (Some ["Arial,plain,12"]) "d" (Some 225%Z) (Some "Dialog,plain,10")
              "galFiltered Style" None) as (_ & _ & _ & Hfont); [unknown |].
  by rewrite Hfont.
Defined.

Lemma font_face_refuses_continuous_witness :
  ∃ cy',
    set_node_font_face_mapping "Degree" (Some [1; 2]%Z) (Some ["Arial,plain,12"]) "c"
      (Some "Dialog,plain,10") "galFiltered Style" None galFiltered
    = (Raise (CyError "Continuous mapping of NODE_LABEL_FONT_FACE values is not supported."),
       cy')
    ∧ calls cy' = [TableColumnExists "Degree" "node" None;
                   SetVisualPropertyDefault "NODE_LABEL_FONT_FACE" "Dialog,plain,10"
                     "galFiltered Style"].
Proof.
  destruct (font_face_refuses_continuous galFiltered "Degree" (Some [1; 2]%Z)
              (Some ["Arial,plain,12"]) "c" (Some "Dialog,plain,10") "galFiltered Style" None)
    as (cy' & Hrun & Hcalls & _); [known | in_list |].
  exists cy'. split; [exact Hrun | exact Hcalls].
Defined.

Lemma border_opacity_discrete_witness :
  ∃ cy',
    set_node_border_opacity_mapping "Degree" (Some [1; 2]%Z) (Some [50; 100]%Z) "lookup"
      (Some 225%Z) "galFiltered Style" None galFiltered
    = (Return (Some EmptyString), cy')
    ∧ applied cy' "galFiltered Style"
        {| mappingType := "discrete"; mappingColumn := "Degree";
           mappingColumnType := "Integer"; visualProperty := "NODE_BORDER_TRANSPARENCY";
           cargo_map := Some [ {| e_key := 1%Z; e_value := "50" |};
                               {| e_key := 2%Z; e_value := "100" |} ];
           cargo_points := None |}.
Proof.
  destruct (border_opacity_discrete galFiltered "Degree" [1; 2]%Z [50; 100]%Z "lookup"
              (Some 225%Z) "galFiltered Style" None "Integer")
    as (write & cy' & Hrun & _ & _ & _ & Happlied).
  - known.
  - reflexivity.
  - ranged.
  - intros d [= <-]. unfold in_range. lia.
  - in_list.
  - exists cy'. split; [exact Hrun | exact Happlied].
Defined.

Lemma font_face_passthrough_witness :
  ∃ cy',
    set_node_font_face_mapping "name" None None "p" (Some "Arial,plain,12")
      "galFiltered Style" None galFiltered_fonts
    = (Return (Some EmptyString), cy')
    ∧ applied cy' "galFiltered Style"
        {| mappingType := "passthrough"; mappingColumn := "name";
           mappingColumnType := "String"; visualProperty := "NODE_LABEL_FONT_FACE";
           cargo_map := None; cargo_points := None |}.
Proof.
  destruct (font_face_passthrough galFiltered_fonts "name" None None "p"
              (Some "Arial,plain,12") "galFiltered Style" None "String")
    as (write & cy' & Hrun & _ & _ & _ & Happlied & _).
  - known.
  - reflexivity.
  - in_list.
  - exists cy'. split; [exact Hrun | exact Happlied].
Defined.

Lemma fill_opacity_without_values_witness :
  ∃ cy',
    set_node_fill_opacity_mapping "Degree" None None "c" None "galFiltered Style" None
      galFiltered
    = (Raise TypeError, cy')
    ∧ style_mappings cy' = style_mappings galFiltered.
Proof.
  destruct (fill_opacity_without_values galFiltered "Degree" None None "c" None
              "galFiltered Style" None) as (cy' & Hrun & _ & Hmaps).
  - known.
  - by eexists.
  - apply Forall_nil_2.
  - intros d [=].
  - in_list.
  - by left.
  - exists cy'. split; [exact Hrun | exact Hmaps].
Defined.

Lemma combo_unrecognized_after_defaults_witness :
  ∃ cy',
    set_node_combo_opacity_mapping "Degree" (Some [1; 2]%Z) (Some [50; 100]%Z) "gradient"
      (Some 225%Z) "galFiltered Style" None galFiltered
    = (Return None, cy')
    ∧ style_defaults cy' "galFiltered Style"
      = [("NODE_LABEL_TRANSPARENCY", "225"); ("NODE_BORDER_TRANSPARENCY", "225");
         ("NODE_TRANSPARENCY", "225")].
Proof.
  destruct (combo_unrecognized_after_defaults galFiltered "Degree" (Some [1; 2]%Z)
              (Some [50; 100]%Z) "gradient" 225%Z "galFiltered Style" None)
    as (cy' & Hrun & _ & Hdefaults & _).
  - known.
  - ranged.
  - unfold in_range. lia.
  - unknown.
  - exists cy'. split; [exact Hrun | exact Hdefaults].
Defined.

Lemma continuous_returns_iff_witness :
  ∃ doc,
    fst (map_visual_property "node fill color" "score" "c" (Some [-2; 0; 2]%Z)
           (Some ["#000099"; "#0066CC"; "#FFFFFF"; "#FFFF00"; "#999900"]) None galFiltered)
    = Return doc.
Proof.
  apply (continuous_returns_iff galFiltered "node fill color" "score" "c" [-2; 0; 2]%Z
           ["#000099"; "#0066CC"; "#FFFFFF"; "#FFFF00"; "#999900"] None); [by left |].
  split; [known |]. split; [by eexists |]. right. split; [reflexivity | discriminate].
Defined.

Lemma get_style_mapping_first_witness :
  fst (get_style_mapping "galFiltered Style" "NODE_LABEL" galFiltered)
  = Return label_passthrough.
Proof.
  destruct (get_style_mapping_first galFiltered "galFiltered Style" "NODE_LABEL")
    as (_ & _ & Hfound).
  destruct Hfound as (doc & before & after & Hdoc & _); [known |].
  rewrite Hdoc. vm_compute in Hdoc. by injection Hdoc as <-.
Defined.

End FurtherOnSession.
